(** * Carbon footprint monitoring tool: emissions model and advice selector

    A shallow embedding of [src/main.py].  Python's [float] is IEEE 754
    binary64 with round-to-nearest-even, which is exactly Rocq's primitive
    [float]; every arithmetic operation and comparison of the source is
    therefore modelled by the primitive operation of the same name, in the
    order in which Python evaluates it.  Decimal literals denote the nearest
    binary64 value, in Python as here. *)

From Stdlib Require Import ZArith QArith Qabs Qround Qpower Lqa.
From Stdlib Require Import List String Ascii Bool Lia.
From Stdlib Require Import Floats DecimalString.
Import ListNotations.

Set Warnings "-inexact-float".

(** ** Numbers

    The formulas of [calculate_footprint] are written once, over the
    operations Python dispatches on the operands' type.  The program runs them
    on [float]; the instance on [Q] is the same text read over exact
    rationals, the arithmetic in which the documentation states its
    examples. *)

Class Number (A : Type) : Type := {
  nadd : A -> A -> A;
  nsub : A -> A -> A;
  nmul : A -> A -> A;
  ndiv : A -> A -> A;
  (** an [int] literal meeting an operand of type [A] *)
  of_int : Z -> A
}.

Declare Scope num_scope.
Delimit Scope num_scope with num.
Infix "+" := nadd : num_scope.
Infix "-" := nsub : num_scope.
Infix "*" := nmul : num_scope.
Infix "/" := ndiv : num_scope.

#[export] Instance float_number : Number float := {|
  nadd := PrimFloat.add;
  nsub := PrimFloat.sub;
  nmul := PrimFloat.mul;
  ndiv := PrimFloat.div;
  of_int := fun z => PrimFloat.of_uint63 (Uint63.of_Z z)
|}.

#[export] Instance Q_number : Number Q := {|
  nadd := Qplus;
  nsub := Qminus;
  nmul := Qmult;
  ndiv := Qdiv;
  of_int := inject_Z
|}.

(** ** The calculator object *)

(** [CarbonCalculator] instances carry the five conversion factors. *)
Record CarbonCalculator (A : Type) : Type := mkCalculator {
  electricity_factor : A;
  gas_factor : A;
  fuel_factor : A;
  waste_factor : A;
  travel_factor : A
}.
Arguments mkCalculator {A}.
Arguments electricity_factor {A}.
Arguments gas_factor {A}.
Arguments fuel_factor {A}.
Arguments waste_factor {A}.
Arguments travel_factor {A}.

(** [CarbonCalculator.__init__]: the factors are [float] literals. *)
Definition __init__ : CarbonCalculator float :=
  {| electricity_factor := 0.0005%float;
     gas_factor := 0.0053%float;
     fuel_factor := 2.32%float;
     waste_factor := 0.57%float;
     travel_factor := 2.31%float |}.

(** The dictionary returned by [calculate_footprint]: four fixed keys. *)
Record Footprint (A : Type) : Type := mkFootprint {
  energy_co2 : A;
  waste_co2 : A;
  travel_co2 : A;
  total_co2 : A
}.
Arguments mkFootprint {A}.
Arguments energy_co2 {A}.
Arguments waste_co2 {A}.
Arguments travel_co2 {A}.
Arguments total_co2 {A}.

(** The seven values gathered by [calculate_footprint], in prompt order. *)
Record InputRecord (A : Type) : Type := mkInput {
  electricity_bill : A;
  gas_bill : A;
  fuel_bill : A;
  waste_kg : A;
  recycle_percent : A;
  km_year : A;
  fuel_efficiency : A
}.
Arguments mkInput {A}.
Arguments electricity_bill {A}.
Arguments gas_bill {A}.
Arguments fuel_bill {A}.
Arguments waste_kg {A}.
Arguments recycle_percent {A}.
Arguments km_year {A}.
Arguments fuel_efficiency {A}.

(** Lines 46-57 of [calculate_footprint]: the arithmetic on the gathered
    values and the dictionary it returns. *)
Definition emissions {A} `{Number A}
    (self : CarbonCalculator A) (r : InputRecord A) : Footprint A :=
  let energy_co2 := ((electricity_bill r * electricity_factor self
                      + gas_bill r * gas_factor self
                      + fuel_bill r * fuel_factor self) * of_int 12)%num in
  let waste_co2 :=
    (waste_kg r * (waste_factor self - (recycle_percent r / of_int 100))
     * of_int 12)%num in
  let travel_co2 :=
    (km_year r / of_int 100 * fuel_efficiency r * travel_factor self)%num in
  let total_co2 := (energy_co2 + waste_co2 + travel_co2)%num in
  {| energy_co2 := energy_co2;
     waste_co2 := waste_co2;
     travel_co2 := travel_co2;
     total_co2 := total_co2 |}.

Local Open Scope float_scope.

(** ** Console input *)

(** One line typed at a prompt, seen through [float(value)]: either the
    parsed number or the [ValueError] of an unparsable line. *)
Inductive entry : Set :=
| Parsed (v : float)
| Unparsable.

(** A computation that consumes typed lines; [None] is the uncaught
    [EOFError] of [input] when the lines run out. *)
Definition Console (A : Type) : Type := list entry -> option (A * list entry).

Definition ret {A} (a : A) : Console A := fun inp => Some (a, inp).

Definition bind {A B} (c : Console A) (k : A -> Console B) : Console B :=
  fun inp => match c inp with
             | Some (a, rest) => k a rest
             | None => None
             end.

Notation "x <- c ;; k" := (bind c (fun x => k))
  (at level 61, c at next level, right associativity).

(** [CarbonCalculator.get_input] with [input_type=float]: retry until a line
    parses and is not below zero. *)
Fixpoint get_input (inp : list entry) : option (float * list entry) :=
  match inp with
  | [] => None
  | Unparsable :: rest => get_input rest
  | Parsed v :: rest => if v <? 0 then get_input rest else Some (v, rest)
  end.

(** [CarbonCalculator.calculate_footprint]. *)
Definition calculate_footprint (self : CarbonCalculator float)
    : Console (Footprint float) :=
  electricity_bill <- get_input ;;
  gas_bill <- get_input ;;
  fuel_bill <- get_input ;;
  waste_kg <- get_input ;;
  recycle_percent <- get_input ;;
  km_year <- get_input ;;
  fuel_efficiency <- get_input ;;
  ret (emissions self
         (mkInput electricity_bill gas_bill fuel_bill
                  waste_kg recycle_percent km_year fuel_efficiency)).

(** ** Advice selection *)

Local Open Scope string_scope.
Local Open Scope list_scope.

(** Python's [a > b] on floats. *)
Definition gt (a b : float) : bool := (b <? a)%float.

Definition newline : string := String "010"%char EmptyString.

(** [sep.join(l)]. *)
Fixpoint join (sep : string) (l : list string) : string :=
  match l with
  | [] => ""
  | [s] => s
  | s :: rest => (s ++ sep ++ join sep rest)%string
  end.

Definition energy_advice : list string :=
  [ "1. Reduce energy consumption by implementing energy-efficient practices and using renewable energy sources.";
    "2. Encourage the use of energy-saving devices and appliances.";
    "3. Conduct energy audits to identify areas for improvement." ].

Definition waste_advice : list string :=
  [ "1. Implement a comprehensive recycling program to reduce waste production.";
    "2. Educate employees about waste reduction and proper recycling techniques.";
    "3. Explore opportunities to compost organic waste." ].

Definition travel_advice : list string :=
  [ "1. Promote remote work and virtual meetings to reduce business travel.";
    "2. Encourage the use of public transportation, carpooling, and biking.";
    "3. Invest in fuel-efficient or electric vehicles for business travel." ].

Definition fallback_advice : list string :=
  [ "1. Continue to monitor and optimize energy usage, waste production, and business travel.";
    "2. Engage employees in sustainability initiatives and create a culture of environmental responsibility." ].

(** The conditions of the three category [if]s, and of the last one. *)
Definition energy_dominant (data : Footprint float) : bool :=
  gt (energy_co2 data) (waste_co2 data) && gt (energy_co2 data) (travel_co2 data).

Definition waste_dominant (data : Footprint float) : bool :=
  gt (waste_co2 data) (energy_co2 data) && gt (waste_co2 data) (travel_co2 data).

Definition travel_dominant (data : Footprint float) : bool :=
  gt (travel_co2 data) (energy_co2 data) && gt (travel_co2 data) (waste_co2 data).

(** The list [advice] after the three category [if]s, which are
    independent of one another: each appends when its condition holds. *)
Definition category_advice (data : Footprint float) : list string :=
  let advice := [] in
  let advice :=
    if energy_dominant data then advice ++ energy_advice else advice in
  let advice :=
    if waste_dominant data then advice ++ waste_advice else advice in
  let advice :=
    if travel_dominant data then advice ++ travel_advice else advice in
  advice.

(** The list [advice] just before the final [join]: [if not advice] appends
    the fallback to a list that is still empty. *)
Definition advice_list (data : Footprint float) : list string :=
  let advice := category_advice data in
  match advice with
  | [] => advice ++ fallback_advice
  | _ :: _ => advice
  end.

(** [generate_advice]. *)
Definition generate_advice (data : Footprint float) : string :=
  join newline (advice_list data).

(** ** The four advice branches *)

Inductive branch : Set := Energy | Waste | Travel | Fallback.

Definition branches : list branch := [Energy; Waste; Travel; Fallback].

Definition branch_eqb (a b : branch) : bool :=
  match a, b with
  | Energy, Energy | Waste, Waste | Travel, Travel | Fallback, Fallback => true
  | _, _ => false
  end.

(** The recommendations a branch appends. *)
Definition block (b : branch) : list string :=
  match b with
  | Energy => energy_advice
  | Waste => waste_advice
  | Travel => travel_advice
  | Fallback => fallback_advice
  end.

(** Whether the body of a branch's [if] runs; for the last one that is
    [not advice]. *)
Definition fires (data : Footprint float) (b : branch) : bool :=
  match b with
  | Energy => energy_dominant data
  | Waste => waste_dominant data
  | Travel => travel_dominant data
  | Fallback => match category_advice data with [] => true | _ :: _ => false end
  end.

(** The branch whose body runs first. *)
Definition selected (data : Footprint float) : branch :=
  if energy_dominant data then Energy
  else if waste_dominant data then Waste
  else if travel_dominant data then Travel
  else Fallback.


(** [s.split(sep)] for a one-character separator. *)
Fixpoint split_on (sep : ascii) (s : string) : list string :=
  match s with
  | EmptyString => [EmptyString]
  | String c rest =>
      if Ascii.eqb c sep then EmptyString :: split_on sep rest
      else match split_on sep rest with
           | [] => [String c EmptyString]
           | w :: ws => String c w :: ws
           end
  end.

Definition lines (s : string) : list string := split_on "010"%char s.

(** Whether the lines carry the numbers 1, 2, ... from [n] on. *)
Fixpoint numbered_from (n : nat) (l : list string) : bool :=
  match l with
  | [] => true
  | s :: rest =>
      String.prefix (String (ascii_of_nat (48 + n)) ". ") s
      && numbered_from (S n) rest
  end.

(** Whether a string occurs in a list of recommendations. *)
Definition mentions (l : list string) (s : string) : bool :=
  existsb (String.eqb s) l.

(** Whether an advice list holds a recommendation of branch [b]. *)
Definition draws_from (l : list string) (b : branch) : bool :=
  existsb (mentions l) (block b).

(** ** Input records *)

Definition fields {A} (r : InputRecord A) : list A :=
  [ electricity_bill r; gas_bill r; fuel_bill r; waste_kg r;
    recycle_percent r; km_year r; fuel_efficiency r ].

(** The lines a user types to enter [r] with no mistake. *)
Definition typed (r : InputRecord float) : list entry := map Parsed (fields r).

Definition non_negative (r : InputRecord float) : bool :=
  forallb (fun x => 0 <=? x)%float (fields r).

Definition finite (r : InputRecord float) : bool :=
  forallb is_finite (fields r).

Definition finite_footprint (d : Footprint float) : bool :=
  forallb is_finite [energy_co2 d; waste_co2 d; travel_co2 d; total_co2 d].

Inductive field : Set :=
| ElectricityBill | GasBill | FuelBill
| WasteKg | RecyclePercent
| KmYear | FuelEfficiency.

Definition get_field {A} (f : field) (r : InputRecord A) : A :=
  match f with
  | ElectricityBill => electricity_bill r
  | GasBill => gas_bill r
  | FuelBill => fuel_bill r
  | WasteKg => waste_kg r
  | RecyclePercent => recycle_percent r
  | KmYear => km_year r
  | FuelEfficiency => fuel_efficiency r
  end.

Definition set_field {A} (f : field) (v : A) (r : InputRecord A) : InputRecord A :=
  let '(mkInput e g u w p k l) := r in
  match f with
  | ElectricityBill => mkInput v g u w p k l
  | GasBill => mkInput e v u w p k l
  | FuelBill => mkInput e g v w p k l
  | WasteKg => mkInput e g u v p k l
  | RecyclePercent => mkInput e g u w v k l
  | KmYear => mkInput e g u w p v l
  | FuelEfficiency => mkInput e g u w p k v
  end.

(** The record with one field multiplied by [k]. *)
Definition scale {A} `{Number A} (f : field) (k : A) (r : InputRecord A)
    : InputRecord A :=
  set_field f (k * get_field f r)%num r.

Inductive category : Set := EnergyUsage | WasteProduction | BusinessTravel.

(** The category whose formula reads the field. *)
Definition category_of (f : field) : category :=
  match f with
  | ElectricityBill | GasBill | FuelBill => EnergyUsage
  | WasteKg | RecyclePercent => WasteProduction
  | KmYear | FuelEfficiency => BusinessTravel
  end.

Definition co2 {A} (c : category) (d : Footprint A) : A :=
  match c with
  | EnergyUsage => energy_co2 d
  | WasteProduction => waste_co2 d
  | BusinessTravel => travel_co2 d
  end.

(** What a field contributes to its category: the category's value less
    what it would be with that field at zero. *)
Definition contribution {A} `{Number A}
    (self : CarbonCalculator A) (f : field) (r : InputRecord A) : A :=
  (co2 (category_of f) (emissions self r)
   - co2 (category_of f) (emissions self (set_field f (of_int 0) r)))%num.

(** ** Scaling by a power of two *)

(** What the category's formula multiplies a field by before its constant
    factor, for the three fields whose category is a plain product. *)
Definition multiplicand (self : CarbonCalculator float) (f : field)
    (r : InputRecord float) : option float :=
  match f with
  | WasteKg => Some (waste_factor self - recycle_percent r / 100)%float
  | KmYear => Some (fuel_efficiency r)
  | FuelEfficiency => Some (km_year r / 100)%float
  | ElectricityBill | GasBill | FuelBill | RecyclePercent => None
  end.

(** [Some j] when [k] is the power of two [2^j], as a normal number. *)
Definition power_of_two (k : float) : option Z :=
  match Prim2SF k with
  | S754_finite false m e =>
      if (m =? 4503599627370496)%positive then Some (e + 52)%Z else None
  | _ => None
  end.

(** [x] is [m * 2^e] for a mantissa [m] and an exponent [e] between [lo]
    and [hi]. *)
Definition exponent_in (lo hi : Z) (x : float) : bool :=
  match Prim2SF x with
  | S754_finite _ _ e => ((lo <=? e) && (e <=? hi))%Z
  | _ => false
  end.

(** The value with [j] added to its exponent. *)
Definition shift (j : Z) (x : spec_float) : spec_float :=
  match x with
  | S754_finite s m e => S754_finite s m (e + j)
  | _ => x
  end.

(** What rounding returns for a mantissa and an exponent. *)
Definition result_of (s : bool) (mm ee : Z) : spec_float :=
  match mm with
  | Z0 => S754_zero s
  | Zpos m => if (ee <=? 971)%Z then S754_finite s m ee else S754_infinity s
  | Zneg _ => S754_nan
  end.

Definition SF_finite (x : spec_float) : bool :=
  match x with
  | S754_zero _ | S754_finite _ _ _ => true
  | S754_infinity _ | S754_nan => false
  end.

Definition exp_ge (lo : Z) (x : spec_float) : Prop :=
  match x with
  | S754_finite _ _ e => (lo <= e)%Z
  | _ => True
  end.

(** [a'] is [a] with [j] added to its exponent, both exponents at least
    [lo]. *)
Definition scaled (j lo : Z) (a a' : float) : Prop :=
  Prim2SF a' = shift j (Prim2SF a)
  /\ exp_ge lo (Prim2SF a) /\ exp_ge lo (Prim2SF a').

(** ** Exact values *)

(** The rational a binary64 value stands for, when it is finite. *)
Definition SF2Q (x : spec_float) : option Q :=
  match x with
  | S754_zero _ => Some 0%Q
  | S754_finite s m e =>
      let v := (inject_Z (Z.pos m) * Qpower 2 e)%Q in
      Some (if s then Qopp v else v)
  | S754_infinity _ | S754_nan => None
  end.

Definition exact (x : float) : option Q := SF2Q (Prim2SF x).

(** [x] stands for the rational [q]. *)
Definition exactly (x : float) (q : Q) : Prop :=
  match exact x with
  | Some v => (v == q)%Q
  | None => False
  end.

(** [x] is finite and less than [eps] away from [q]. *)
Definition within (eps : Q) (x : float) (q : Q) : Prop :=
  match exact x with
  | Some v => (Qabs (v - q) < eps)%Q
  | None => False
  end.

(** The conversion factors as the decimal numbers [__init__] writes. *)
Definition exact_factors : CarbonCalculator Q :=
  {| electricity_factor := 0.0005%Q;
     gas_factor := 0.0053%Q;
     fuel_factor := 2.32%Q;
     waste_factor := 0.57%Q;
     travel_factor := 2.31%Q |}.

(** ** Records used in the examples *)

Definition zero_record : InputRecord float := mkInput 0 0 0 0 0 0 0.

Definition scenario : InputRecord float := mkInput 100 50 0 200 50 10000 8.

Definition scenario_exact : InputRecord Q :=
  mkInput 100%Q 50%Q 0%Q 200%Q 50%Q 10000%Q 8%Q.

(** Everything recycled: ten kilograms of waste, all of it diverted. *)
Definition all_recycled : InputRecord float := mkInput 0 0 0 10 100 0 0.

(** ** What the input loop skips *)

(** A line after which [get_input] prompts again: [float(value)] raised
    [ValueError], or the value is below zero. *)
Definition rejected (e : entry) : bool :=
  match e with
  | Parsed v => (v <? 0)%float
  | Unparsable => true
  end.

(** The values of the lines that are not rejected, in order. *)
Definition accepted (inp : list entry) : list float :=
  flat_map (fun e => match e with
                     | Parsed v => if (v <? 0)%float then [] else [v]
                     | Unparsable => []
                     end) inp.

(** The record made of exactly seven values, in prompt order. *)
Definition from_fields (l : list float) : option (InputRecord float) :=
  match l with
  | [e; g; u; w; p; k; f] => Some (mkInput e g u w p k f)
  | _ => None
  end.

(** ** Text of the report *)

(** [str(n)] for a non-negative [int]. *)
Definition decimal (n : Z) : string :=
  NilZero.string_of_uint (N.to_uint (Z.to_N n)).

(** The integer nearest to a non-negative rational, ties to the even one. *)
Definition round_half_even (q : Q) : Z :=
  let n := Qfloor q in
  match Qcompare (q - inject_Z n) (1 # 2) with
  | Lt => n
  | Gt => (n + 1)%Z
  | Eq => if Z.even n then n else (n + 1)%Z
  end.

(** The number of hundredths shown for the magnitude [q]. *)
Definition hundredths (q : Q) : Z := round_half_even (q * 100).

Definition two_digits (n : Z) : string :=
  if (n <? 10)%Z then "0" ++ decimal n else decimal n.

(** Sign, integer part, point and two decimals. *)
Definition fixed2 (negative : bool) (n : Z) : string :=
  (if negative then "-" else "")
  ++ decimal (n / 100) ++ "." ++ two_digits (n mod 100).

(** The format specification [:.2f] applied to a [float]: the exact binary
    value correctly rounded to two decimals, ties to even, the sign bit
    kept; [nan] and the infinities by name. *)
Definition format_2f (x : float) : string :=
  match Prim2SF x with
  | S754_nan => "nan"
  | S754_infinity s => if s then "-inf" else "inf"
  | S754_zero s => fixed2 s 0
  | S754_finite s m e =>
      fixed2 s (hundredths (inject_Z (Z.pos m) * Qpower 2 e))
  end.

(** The number that [fixed2 negative n] reads as. *)
Definition shown (negative : bool) (n : Z) : Q :=
  let v := (inject_Z n / 100)%Q in
  if negative then Qopp v else v.

Definition is_digit (c : ascii) : bool := (("0" <=? c) && (c <=? "9"))%char.

(** Two digit characters and nothing else. *)
Definition two_decimals (s : string) : bool :=
  match s with
  | String d1 (String d2 EmptyString) => is_digit d1 && is_digit d2
  | _ => false
  end.

(** The strings [generate_report] builds. *)
Definition report_title (organization_name : string) : string :=
  organization_name ++ " Carbon Footprint Report".

Definition problem_statement (organization_name : string) : string :=
  "The carbon footprint of " ++ organization_name
  ++ " directly impacts climate change. Reducing it is vital for environmental sustainability. This report analyzes the carbon footprint based on energy usage, waste production, and business travel.".

Definition headers : list string := ["Category"; "CO2 Emission (kg)"].

Definition table_data (data : Footprint float) : list (list string) :=
  [ ["Energy Usage"; format_2f (energy_co2 data)];
    ["Waste Production"; format_2f (waste_co2 data)];
    ["Business Travel"; format_2f (travel_co2 data)];
    ["Total"; format_2f (total_co2 data)] ].

Definition conclusions : string :=
  "Conclusions and suggestions for future work will involve "
  ++ "optimization of resource usage, investment in renewable energy, "
  ++ "and promoting recycling and waste management programs to reduce "
  ++ "the overall carbon footprint." ++ newline ++ newline
  ++ "Specific Advice to Reduce CO2 Emissions:" ++ newline.

(** The file name handed to [pdf.output]. *)
Definition report_path (organization_name : string) : string :=
  "reports/" ++ organization_name ++ "_carbon_footprint_report.pdf".

(** ** The PDF document *)

(** The exceptions that end a run: the two the code's own operations
    raise, and those of [pdf.output], which opens the report file. *)
Inductive exn : Set :=
| ZeroDivisionError
| EOFError
| FileNotFoundError
| OtherError (class_name : string).

(** What [pdf.output] raises when given a file name, [None] when it writes
    the file.  This is the state of the file system, which the program does
    not control: [FileNotFoundError] when the directory [reports] is missing
    or the name leads into a directory that does not exist. *)
Definition file_system : Type := string -> option exn.

(** The calls [PDFReport] makes on the [FPDF] it inherits from, with the
    arguments as written; an argument left to its default is [None]. *)
Inductive fpdf_call : Set :=
| add_page
| set_auto_page_break (auto : bool) (margin : Z)
| set_font (family style : string) (size : Z)
| set_y (y : Z)
| cell (width : float) (h : Z) (txt : string)
       (border line_break : option Z) (align : option string)
| multi_cell (width : float) (h : Z) (txt : string)
| ln (h : option Z)
| output (name : string).

Module PDFReport.

(** The object: its [title], the page width [w] that [FPDF.__init__] set,
    and the calls made on it so far. *)
Record t : Set := mk {
  title : string;
  w : float;
  calls : list fpdf_call
}.

Definition call (self : t) (c : fpdf_call) : t :=
  {| title := title self; w := w self; calls := calls self ++ [c] |}.

(** [PDFReport.__init__]; [page_w] is the width the inherited constructor
    gives the page. *)
Definition __init__ (page_w : float) (title : string) : t :=
  let self := {| title := title; w := page_w; calls := [] |} in
  let self := call self add_page in
  call self (set_auto_page_break true 15).

Definition header (self : t) : t :=
  let self := call self (set_font "Arial" "B" 16) in
  let self := call self (cell 0 10 (title self) (Some 0%Z) (Some 1%Z) (Some "C")) in
  call self (ln (Some 10%Z)).

(** [page_no] is what [self.page_no()] returns. *)
Definition footer (page_no : Z) (self : t) : t :=
  let self := call self (set_y (-15)) in
  let self := call self (set_font "Arial" "I" 8) in
  call self (cell 0 10 ("Page " ++ decimal page_no) (Some 0%Z) (Some 0%Z) (Some "C")).

Definition chapter_title (self : t) (title : string) : t :=
  let self := call self (set_font "Arial" "B" 12) in
  let self := call self (cell 0 10 title (Some 0%Z) (Some 1%Z) (Some "L")) in
  call self (ln (Some 5%Z)).

Definition chapter_body (self : t) (body : string) : t :=
  let self := call self (set_font "Arial" "" 12) in
  let self := call self (multi_cell 0 10 body) in
  call self (ln None).

Definition add_report_section (self : t) (title content : string) : t :=
  let self := chapter_title self title in
  chapter_body self content.

(** One row of [add_table]: a bordered cell per item, then a line break. *)
Definition add_row (col_width : float) (self : t) (row : list string) : t :=
  let self :=
    fold_left (fun self item => call self (cell col_width 10 item (Some 1%Z) None None))
              row self in
  call self (ln None).

(** [add_table]: the division [self.w / len(headers)] raises on an empty
    header list, before anything is drawn. *)
Definition add_table (self : t) (headers : list string) (data : list (list string))
    : t * option exn :=
  if Nat.eqb (List.length headers) 0 then (self, Some ZeroDivisionError)
  else
    let col_width := (w self / of_int (Z.of_nat (List.length headers)))%float in
    let self := add_row col_width self headers in
    let self := fold_left (add_row col_width) data self in
    (self, None).

End PDFReport.

(** [generate_report]: the document after the call, and the exception that
    ended it early, if any.  The document records [output] when the file
    was written. *)
Definition generate_report (fs : file_system) (page_w : float)
    (data : Footprint float) (organization_name : string)
    : PDFReport.t * option exn :=
  let title := report_title organization_name in
  let pdf := PDFReport.__init__ page_w title in
  let pdf := PDFReport.add_report_section pdf "Problem Statement"
               (problem_statement organization_name) in
  let pdf := PDFReport.add_report_section pdf "Summaries of the Analysis" "" in
  match PDFReport.add_table pdf headers (table_data data) with
  | (pdf, Some e) => (pdf, Some e)
  | (pdf, None) =>
      let advice := generate_advice data in
      let pdf := PDFReport.add_report_section pdf "Conclusions and Suggestions"
                   (conclusions ++ advice) in
      match fs (report_path organization_name) with
      | Some e => (pdf, Some e)
      | None => (PDFReport.call pdf (output (report_path organization_name)), None)
      end
  end.

(** A line typed at the console: its text and what [float] makes of it. *)
Record line : Set := mkLine { text : string; as_float : entry }.

(** [main]: the document written, or the exception that ended the run. *)
Definition main (fs : file_system) (page_w : float) (typed_lines : list line)
    : exn + PDFReport.t :=
  let calculator := __init__ in
  match typed_lines with
  | [] => inl EOFError
  | first :: rest =>
      let organization_name := text first in
      match calculate_footprint calculator (map as_float rest) with
      | None => inl EOFError
      | Some (footprint_data, _) =>
          match generate_report fs page_w footprint_data organization_name with
          | (_, Some e) => inl e
          | (pdf, None) => inr pdf
          end
      end
  end.

(** The document [generate_report] has built when it reaches [pdf.output]. *)
Definition report_document (page_w : float)
    (data : Footprint float) (organization_name : string) : PDFReport.t :=
  fst (generate_report (fun _ => Some FileNotFoundError) page_w data
         organization_name).

(** The calls that draw the rows of a table whose columns are [col_width]
    wide. *)
Definition table_calls (col_width : float) (rows : list (list string))
    : list fpdf_call :=
  flat_map (fun row =>
              map (fun item => cell col_width 10 item (Some 1%Z) None None) row
              ++ [ln None]) rows.

(** The [output] calls among a list of calls. *)
Definition outputs (l : list fpdf_call) : list string :=
  flat_map (fun c => match c with output name => [name] | _ => [] end) l.

(** The bordered cells among a list of calls: width and text. *)
Definition bordered_cells (l : list fpdf_call) : list (float * string) :=
  flat_map (fun c => match c with
                     | cell width _ txt (Some 1%Z) _ _ => [(width, txt)]
                     | _ => []
                     end) l.

Definition line_breaks (l : list fpdf_call) : nat :=
  List.length (filter (fun c => match c with ln _ => true | _ => false end) l).

(** * Properties *)

(** ** Comparison on binary64 *)

Ltac sf_cases x y :=
  let sx := fresh "sx" in let mx := fresh "mx" in let ex := fresh "ex" in
  let sy := fresh "sy" in let my := fresh "my" in let ey := fresh "ey" in
  destruct x as [sx|sx| |sx mx ex], y as [sy|sy| |sy my ey];
  try destruct sx; try destruct sy; try discriminate; try reflexivity;
  rewrite (Z.compare_antisym ex ey), !Pos.compare_cont_spec,
          (Pos.compare_antisym mx my);
  destruct (Z.compare ex ey), (Pos.compare mx my); simpl; congruence.

Lemma SFltb_asym (x y : spec_float) : SFltb x y = true -> SFltb y x = false.
Proof. unfold SFltb, SFcompare. sf_cases x y. Qed.



Lemma SFleb_not_gt (x y : spec_float) : SFleb x y = true -> SFltb y x = false.
Proof. unfold SFleb, SFltb, SFcompare. sf_cases x y. Qed.

Lemma gt_asym (a b : float) : gt a b = true -> gt b a = false.
Proof. unfold gt. rewrite !ltb_spec. apply SFltb_asym. Qed.

Lemma gt_irrefl (a : float) : gt a a = false.
Proof.
  destruct (gt a a) eqn:E; [|reflexivity].
  now rewrite (gt_asym _ _ E) in E.
Qed.


Lemma leb_not_ltb (a b : float) : (a <=? b)%float = true -> (b <? a)%float = false.
Proof. rewrite leb_spec, ltb_spec. apply SFleb_not_gt. Qed.

(** ** The advice selector *)

Section Advice.

Variable data : Footprint float.

(** Two category conditions never hold together: each contains a
    comparison that is the converse of one in the other. *)
Lemma energy_excludes :
  energy_dominant data = true ->
  waste_dominant data = false /\ travel_dominant data = false.
Proof.
  unfold energy_dominant, waste_dominant, travel_dominant.
  intros [Hw Ht]%andb_true_iff.
  now rewrite (gt_asym _ _ Hw), (gt_asym _ _ Ht).
Qed.

Lemma waste_excludes :
  waste_dominant data = true ->
  energy_dominant data = false /\ travel_dominant data = false.
Proof.
  unfold energy_dominant, waste_dominant, travel_dominant.
  intros [He Ht]%andb_true_iff.
  rewrite (gt_asym _ _ He), (gt_asym _ _ Ht).
  now rewrite andb_false_r.
Qed.

Lemma travel_excludes :
  travel_dominant data = true ->
  energy_dominant data = false /\ waste_dominant data = false.
Proof.
  unfold energy_dominant, waste_dominant, travel_dominant.
  intros [He Hw]%andb_true_iff.
  rewrite (gt_asym _ _ He), (gt_asym _ _ Hw).
  now rewrite !andb_false_r.
Qed.

(** The three appends and the fallback, as one case distinction. *)
Lemma advice_list_selected : advice_list data = block (selected data).
Proof.
  unfold advice_list, category_advice, selected.
  destruct (energy_dominant data) eqn:He.
  - destruct (energy_excludes He) as [-> ->]. reflexivity.
  - destruct (waste_dominant data) eqn:Hw.
    + destruct (waste_excludes Hw) as [_ ->]. reflexivity.
    + destruct (travel_dominant data); reflexivity.
Qed.

Lemma fires_selected (b : branch) : fires data b = branch_eqb b (selected data).
Proof.
  unfold selected, fires, category_advice.
  destruct (energy_dominant data) eqn:He.
  - destruct (energy_excludes He) as [Hw Ht].
    destruct b; simpl; rewrite ?He, ?Hw, ?Ht; reflexivity.
  - destruct (waste_dominant data) eqn:Hw.
    + destruct (waste_excludes Hw) as [_ Ht].
      destruct b; simpl; rewrite ?He, ?Hw, ?Ht; reflexivity.
    + destruct (travel_dominant data) eqn:Ht;
        destruct b; simpl; rewrite ?He, ?Hw, ?Ht; reflexivity.
Qed.


End Advice.

Lemma generate_advice_selected (data : Footprint float) :
  generate_advice data = join newline (block (selected data)).
Proof. unfold generate_advice. now rewrite advice_list_selected. Qed.

(** A block holds recommendations of its own branch only. *)
Lemma draws_from_block (b c : branch) :
  draws_from (block c) b = branch_eqb b c.
Proof. destruct b, c; vm_compute; reflexivity. Qed.

(** The text of a branch splits back into its recommendations. *)
Lemma lines_block (b : branch) : lines (join newline (block b)) = block b.
Proof. destruct b; vm_compute; reflexivity. Qed.




(** C3: exactly one of the four branches runs.  A category strictly
    greater than both others, by the float comparisons themselves, yields
    that category's three recommendations, in order and joined by newlines,
    and when none is the fallback's two; the output never mixes
    recommendations of two branches.  The returned texts are written out
    character by character. *)
Theorem exactly_one_branch (data : Footprint float) :
  let e := energy_co2 data in
  let w := waste_co2 data in
  let t := travel_co2 data in
  let energy_first := ((w <? e)%float && (t <? e)%float)%bool in
  let waste_first := ((e <? w)%float && (t <? w)%float)%bool in
  let travel_first := ((e <? t)%float && (w <? t)%float)%bool in
  let none_first := negb (energy_first || waste_first || travel_first) in
  List.length
    (filter (fun b : bool => b)
       [energy_first; waste_first; travel_first; none_first]) = 1%nat
  /\ (energy_first = true ->
        advice_list data = energy_advice
        /\ generate_advice data
           = ("1. Reduce energy consumption by implementing energy-efficient practices and using renewable energy sources."
           ++ String "010"%char
           ("2. Encourage the use of energy-saving devices and appliances."
           ++ String "010"%char
           "3. Conduct energy audits to identify areas for improvement."))%string)
  /\ (waste_first = true ->
        advice_list data = waste_advice
        /\ generate_advice data
           = ("1. Implement a comprehensive recycling program to reduce waste production."
           ++ String "010"%char
           ("2. Educate employees about waste reduction and proper recycling techniques."
           ++ String "010"%char
           "3. Explore opportunities to compost organic waste."))%string)
  /\ (travel_first = true ->
        advice_list data = travel_advice
        /\ generate_advice data
           = ("1. Promote remote work and virtual meetings to reduce business travel."
           ++ String "010"%char
           ("2. Encourage the use of public transportation, carpooling, and biking."
           ++ String "010"%char
           "3. Invest in fuel-efficient or electric vehicles for business travel."))%string)
  /\ (none_first = true ->
        advice_list data = fallback_advice
        /\ generate_advice data
           = ("1. Continue to monitor and optimize energy usage, waste production, and business travel."
           ++ String "010"%char
           "2. Engage employees in sustainability initiatives and create a culture of environmental responsibility.")%string)
  /\ filter (fires data) branches = [selected data]
  /\ (forall b c, b <> c ->
        draws_from (advice_list data) b && draws_from (advice_list data) c
        = false).
Proof.
  intros e w t energy_first waste_first travel_first none_first.
  change energy_first with (energy_dominant data) in *.
  change waste_first with (waste_dominant data) in *.
  change travel_first with (travel_dominant data) in *.
  assert (Hsel : forall b, selected data = b ->
            advice_list data = block b
            /\ generate_advice data = join newline (block b))
    by (intros b <-; split;
        [apply advice_list_selected | apply generate_advice_selected]).
  split; [|split; [|split; [|split; [|split; [|split]]]]].
  - subst none_first. cbn [filter].
    destruct (energy_dominant data) eqn:He.
    + destruct (energy_excludes data He) as [-> ->]. reflexivity.
    + destruct (waste_dominant data) eqn:Hw.
      * destruct (waste_excludes data Hw) as [_ ->]. reflexivity.
      * destruct (travel_dominant data); reflexivity.
  - intros He. apply (Hsel Energy). unfold selected. now rewrite He.
  - intros Hw. destruct (waste_excludes data Hw) as [He _].
    apply (Hsel Waste). unfold selected. now rewrite He, Hw.
  - intros Ht. destruct (travel_excludes data Ht) as [He Hw].
    apply (Hsel Travel). unfold selected. now rewrite He, Hw, Ht.
  - subst none_first. intros Hn.
    apply negb_true_iff in Hn. apply orb_false_iff in Hn.
    destruct Hn as [Hn Ht]. apply orb_false_iff in Hn. destruct Hn as [He Hw].
    apply (Hsel Fallback). unfold selected. now rewrite He, Hw, Ht.
  - unfold branches. cbn [filter]. rewrite !fires_selected.
    destruct (selected data); reflexivity.
  - rewrite advice_list_selected.
    intros b c Hbc. rewrite !draws_from_block.
    destruct b, c, (selected data); try reflexivity; congruence.
Qed.

Lemma exactly_one_branch_witness :
  generate_advice (mkFootprint 1 68.4 0 69.4)
  = ("1. Implement a comprehensive recycling program to reduce waste production."
           ++ String "010"%char
           ("2. Educate employees about waste reduction and proper recycling techniques."
           ++ String "010"%char
           "3. Explore opportunities to compost organic waste."))%string.
Proof.
  pose proof (exactly_one_branch (mkFootprint 1 68.4 0 69.4)) as H.
  cbv zeta in H. apply H. reflexivity.
Defined.

(** C9: on every footprint, negative and zero components included, the
    output is the text of one of the four blocks; it is never empty and
    has three lines for a category block, two for the fallback. *)
Theorem advice_is_one_of_four_texts (data : Footprint float) :
  In (generate_advice data) (map (fun b => join newline (block b)) branches)
  /\ generate_advice data <> ""%string
  /\ lines (generate_advice data) = advice_list data
  /\ List.length (lines (generate_advice data))
     = match selected data with Fallback => 2%nat | _ => 3%nat end
  /\ numbered_from 1 (lines (generate_advice data)) = true.
Proof.
  rewrite generate_advice_selected, lines_block, advice_list_selected.
  destruct (selected data); repeat split;
    solve [ reflexivity | simpl; tauto | vm_compute; discriminate ].
Qed.

(** C10: the advice depends on [energy_co2], [waste_co2] and [travel_co2]
    only; footprints that differ in [total_co2] alone get the same advice. *)
Theorem advice_ignores_total (d1 d2 : Footprint float) :
  energy_co2 d1 = energy_co2 d2 ->
  waste_co2 d1 = waste_co2 d2 ->
  travel_co2 d1 = travel_co2 d2 ->
  generate_advice d1 = generate_advice d2.
Proof.
  intros He Hw Ht.
  unfold generate_advice, advice_list, category_advice,
    energy_dominant, waste_dominant, travel_dominant.
  now rewrite He, Hw, Ht.
Qed.

Lemma advice_ignores_total_witness :
  total_co2 (mkFootprint 3 2 1 6) <> total_co2 (mkFootprint 3 2 1 1000)
  /\ generate_advice (mkFootprint 3 2 1 6)
     = generate_advice (mkFootprint 3 2 1 1000).
Proof.
  split.
  - intros E. apply (f_equal Prim2SF) in E. vm_compute in E. discriminate E.
  - apply (advice_ignores_total (mkFootprint 3 2 1 6) (mkFootprint 3 2 1 1000));
      reflexivity.
Defined.

(** ** Console input *)

Lemma get_input_accepts (v : float) (rest : list entry) :
  (0 <=? v)%float = true -> get_input (Parsed v :: rest) = Some (v, rest).
Proof. intros H. simpl. now rewrite (leb_not_ltb _ _ H). Qed.

(** Whatever [get_input] returns has passed the check against zero. *)
Lemma get_input_checked (inp rest : list entry) (v : float) :
  get_input inp = Some (v, rest) -> (v <? 0)%float = false.
Proof.
  induction inp as [|[x|] inp IH]; simpl; try discriminate; try exact IH.
  destruct (x <? 0)%float eqn:E; [exact IH|].
  intros [= <- _]. exact E.
Qed.

(** Seven acceptable lines are consumed in order, none retried. *)
Lemma calculate_footprint_typed
    (self : CarbonCalculator float) (r : InputRecord float) (rest : list entry) :
  non_negative r = true ->
  calculate_footprint self (typed r ++ rest) = Some (emissions self r, rest).
Proof.
  destruct r as [e g u w p k l]. unfold non_negative, typed, fields.
  cbn [forallb map app]. rewrite !andb_true_iff.
  intros (He & Hg & Hu & Hw & Hp & Hk & Hl & _).
  unfold calculate_footprint, bind.
  rewrite (get_input_accepts _ _ He), (get_input_accepts _ _ Hg),
    (get_input_accepts _ _ Hu), (get_input_accepts _ _ Hw),
    (get_input_accepts _ _ Hp), (get_input_accepts _ _ Hk),
    (get_input_accepts _ _ Hl).
  reflexivity.
Qed.

(** ** The emissions model *)

(** The returned total is a rounded sum: on the documented scenario it is
    not the exact sum of the three returned values, whose first is not the
    exact value of its formula either, and on finite non-negative fields
    that overflow it is not a number at all. *)
Lemma exact_sum_counterexample :
  let d := emissions __init__ scenario in
  non_negative scenario = true
  /\ ~ (exists e w t : Q,
          exactly (energy_co2 d) e /\ exactly (waste_co2 d) w
          /\ exactly (travel_co2 d) t /\ exactly (total_co2 d) (e + w + t))
  /\ ~ exactly (energy_co2 d) ((100 * 0.0005 + 50 * 0.0053 + 0 * 2.32) * 12)
  /\ (let r := mkInput 0 0 1e308 1e308 100 0 0 in
      let o := emissions __init__ r in
      non_negative r = true /\ finite r = true
      /\ total_co2 o = nan
      /\ (total_co2 o =? energy_co2 o + waste_co2 o + travel_co2 o)%float = false).
Proof.
  intros d. split; [reflexivity|]. split; [|split].
  - intros (e & w & t & He & Hw & Ht & Hs). unfold exactly in *.
    destruct (exact (energy_co2 d)) as [ve|] eqn:Ee; [|contradiction].
    destruct (exact (waste_co2 d)) as [vw|] eqn:Ew; [|contradiction].
    destruct (exact (travel_co2 d)) as [vt|] eqn:Et; [|contradiction].
    destruct (exact (total_co2 d)) as [vs|] eqn:Es; [|contradiction].
    rewrite <- He, <- Hw, <- Ht in Hs.
    vm_compute in Ee, Ew, Et, Es.
    injection Ee as <-. injection Ew as <-. injection Et as <-.
    injection Es as <-. vm_compute in Hs. discriminate Hs.
  - intros H. vm_compute in H. discriminate H.
  - repeat split; reflexivity.
Qed.

(** C1, as the code has it: on non-negative fields the computation returns
    the values of the documented formulas evaluated in binary64, operation
    by operation in source order, with the factors of [__init__]; the total
    is the binary64 sum of the three returned categories, the very value of
    [energy_co2 + waste_co2 + travel_co2], and Python's [==] between the two
    holds whenever the total is a number. *)
Theorem footprint_formulas (r : InputRecord float) (rest : list entry) :
  non_negative r = true ->
  let d := emissions __init__ r in
  calculate_footprint __init__ (typed r ++ rest) = Some (d, rest)
  /\ energy_co2 d
     = (electricity_bill r * 0.0005 + gas_bill r * 0.0053 + fuel_bill r * 2.32)
       * 12
  /\ waste_co2 d = waste_kg r * (0.57 - recycle_percent r / 100) * 12
  /\ travel_co2 d = (km_year r / 100) * fuel_efficiency r * 2.31
  /\ total_co2 d = energy_co2 d + waste_co2 d + travel_co2 d
  /\ (total_co2 d =? energy_co2 d + waste_co2 d + travel_co2 d)%float
     = negb (is_nan (total_co2 d)).
Proof.
  intros H d. split; [now apply calculate_footprint_typed|].
  repeat split; try reflexivity.
  unfold is_nan. now rewrite negb_involutive.
Qed.

Lemma footprint_formulas_witness :
  calculate_footprint __init__ (typed scenario ++ [Unparsable])
  = Some (emissions __init__ scenario, [Unparsable])
  /\ total_co2 (emissions __init__ scenario)
     = energy_co2 (emissions __init__ scenario)
       + waste_co2 (emissions __init__ scenario)
       + travel_co2 (emissions __init__ scenario).
Proof.
  pose proof (footprint_formulas scenario [Unparsable] eq_refl) as H.
  split; [exact (proj1 H) | exact (proj1 (proj2 (proj2 (proj2 (proj2 H)))))].
Defined.

(** C8: the all-zero record gives the all-zero footprint. *)
Theorem zero_record_gives_zero_footprint :
  emissions __init__ zero_record = mkFootprint 0 0 0 0
  /\ calculate_footprint __init__ (typed zero_record)
     = Some (mkFootprint 0 0 0 0, []).
Proof. split; reflexivity. Qed.

(** A finite binary64 value is a zero or has a mantissa and an exponent. *)
Lemma is_finite_cases (x : float) :
  is_finite x = true ->
  (exists s, Prim2SF x = S754_zero s)
  \/ (exists s m e, Prim2SF x = S754_finite s m e).
Proof.
  unfold is_finite, is_nan, is_infinity.
  rewrite !eqb_spec, abs_spec.
  change (Prim2SF infinity) with (S754_infinity false).
  destruct (Prim2SF x) as [s|s| |s m e]; eauto;
    [destruct s|]; intros H; vm_compute in H; discriminate H.
Qed.

(** A finite value times zero, times twelve, is a zero. *)
Lemma finite_times_zero (w : float) :
  is_finite w = true -> exists s, Prim2SF (w * 0 * 12) = S754_zero s.
Proof.
  intros Hfin. rewrite !mul_spec.
  change (Prim2SF 0) with (S754_zero false).
  replace (Prim2SF 12) with (S754_finite false 6755399441055744 (-49))
    by (vm_compute; reflexivity).
  destruct (is_finite_cases w Hfin) as [[s ->]|(s & m & e & ->)];
    destruct s; eexists; reflexivity.
Qed.

(** With [recycle_percent] at 57 and [waste_kg] infinite, a value that
    [get_input] lets through, the waste emission is not a number. *)
Lemma infinite_waste_counterexample :
  let r := mkInput 0 0 0 infinity 57 0 0 in
  non_negative r = true
  /\ calculate_footprint __init__ (typed r) = Some (emissions __init__ r, [])
  /\ waste_co2 (emissions __init__ r) = nan
  /\ (waste_co2 (emissions __init__ r) =? 0)%float = false.
Proof. repeat split; reflexivity. Qed.

(** C5, as the code has it: with [recycle_percent] at 57, written so or as
    [100 * 0.57], the waste emission of any finite non-negative [waste_kg]
    is zero, whatever the other fields. *)
Theorem recycling_57_percent_cancels_waste (r : InputRecord float) :
  is_finite (waste_kg r) = true ->
  (0 <=? waste_kg r)%float = true ->
  recycle_percent r = 57 \/ recycle_percent r = 100 * waste_factor __init__ ->
  (waste_co2 (emissions __init__ r) =? 0)%float = true
  /\ exactly (waste_co2 (emissions __init__ r)) 0.
Proof.
  intros Hfin _ Hp.
  change (waste_co2 (emissions __init__ r))
    with (waste_kg r * (0.57 - recycle_percent r / 100) * 12).
  replace (0.57 - recycle_percent r / 100) with 0%float
    by (destruct Hp as [-> | ->]; reflexivity).
  destruct (finite_times_zero _ Hfin) as [s Hs].
  unfold exactly, exact. rewrite eqb_spec, Hs.
  split; reflexivity.
Qed.

Lemma recycling_57_percent_cancels_waste_witness :
  (waste_co2 (emissions __init__ (mkInput 120 40 15 2500 57 9000 6.5)) =? 0)%float
  = true.
Proof.
  apply (recycling_57_percent_cancels_waste (mkInput 120 40 15 2500 57 9000 6.5));
    [reflexivity | reflexivity | left; reflexivity].
Defined.

(** C6: a record of non-negative finite fields with [recycle_percent] above
    [100 * 0.57] for which the computation returns normally and the waste
    emission it returns is below zero. *)
Theorem negative_waste_is_returned :
  exists (r : InputRecord float) (d : Footprint float),
    non_negative r = true
    /\ finite r = true
    /\ gt (recycle_percent r) (100 * waste_factor __init__) = true
    /\ gt (recycle_percent r) 57 = true
    /\ calculate_footprint __init__ (typed r) = Some (d, [])
    /\ (waste_co2 d <? 0)%float = true
    /\ finite_footprint d = true
    /\ total_co2 d = energy_co2 d + waste_co2 d + travel_co2 d.
Proof.
  exists all_recycled, (emissions __init__ all_recycled).
  repeat split; reflexivity.
Qed.

(** ** Scaling one field *)

(** Over exact rationals a field's contribution is linear in the field. *)
Lemma contribution_linear_exact (f : field) (k : Q) (r : InputRecord Q) :
  (contribution exact_factors f (scale f k r)
   == k * contribution exact_factors f r)%Q.
Proof.
  destruct r as [e g u w p q l].
  destruct f; unfold contribution, scale, emissions; simpl;
    unfold Qdiv; change (/ inject_Z 100)%Q with (1 # 100)%Q; ring.
Qed.

(** Scaling a field leaves the categories that do not read it as they were. *)
Lemma scale_frame (f : field) (k : float) (r : InputRecord float) (c : category) :
  c <> category_of f ->
  co2 c (emissions __init__ (scale f k r)) = co2 c (emissions __init__ r).
Proof.
  destruct r as [e g u w p q l].
  destruct f, c; simpl; intros H; try reflexivity; now contradiction H.
Qed.

(** On binary64 the two sides differ by rounding: tripling [km_year] in a
    record of non-negative finite fields does not triple [travel_co2], and
    tripling [electricity_bill] does not triple its contribution. *)
Lemma scaling_rounds_counterexample :
  let r := mkInput 100 0 0 0 0 10 7 in
  non_negative r = true
  /\ finite r = true
  /\ (0 <? 3)%float = true
  /\ travel_co2 (emissions __init__ (scale KmYear 3 r)) = 4.851
  /\ 3 * travel_co2 (emissions __init__ r) = 4.8510000000000009
  /\ (travel_co2 (emissions __init__ (scale KmYear 3 r))
      =? 3 * travel_co2 (emissions __init__ r))%float = false
  /\ (contribution __init__ ElectricityBill (scale ElectricityBill 3 r)
      =? 3 * contribution __init__ ElectricityBill r)%float = false.
Proof. repeat split; reflexivity. Qed.

(** ** The documented scenario *)

(** The values the formulas take over exact rationals. *)
Lemma scenario_exact_values :
  let d := emissions exact_factors scenario_exact in
  (energy_co2 d == 3.78 /\ waste_co2 d == 168
   /\ travel_co2 d == 1848 /\ total_co2 d == 2019.78)%Q.
Proof. repeat split; vm_compute; reflexivity. Qed.

(** The binary64 results are not those rationals: [energy_co2] and
    [waste_co2] are not even the binary64 values nearest to 3.78 and 168. *)
Lemma scenario_not_exact_counterexample :
  ~ (let d := emissions __init__ scenario in
     exactly (energy_co2 d) 3.78
     /\ exactly (waste_co2 d) 168
     /\ exactly (travel_co2 d) 1848
     /\ exactly (total_co2 d) 2019.78
     /\ generate_advice d = join newline travel_advice).
Proof.
  intros (_ & Hw & _). vm_compute in Hw. discriminate Hw.
Qed.

(** C4, as the code has it: the scenario yields the binary64 values
    3.7800000000000002, 167.99999999999989, 1848 and 2019.78; the travel
    value is the rational 1848, the other three lie within 10^-12 of 3.78,
    168 and 2019.78, which are the values of the formulas over exact
    rationals; the travel-focused advice is selected. *)
Theorem scenario_values :
  let d := emissions __init__ scenario in
  let q := emissions exact_factors scenario_exact in
  calculate_footprint __init__ (typed scenario) = Some (d, [])
  /\ d = mkFootprint 3.7800000000000002 167.99999999999989 1848 2019.78
  /\ (energy_co2 d =? 3.78)%float = false
  /\ (waste_co2 d =? 168)%float = false
  /\ (energy_co2 q == 3.78 /\ waste_co2 q == 168
      /\ travel_co2 q == 1848 /\ total_co2 q == 2019.78)%Q
  /\ within (1 # 1000000000000) (energy_co2 d) 3.78
  /\ within (1 # 1000000000000) (waste_co2 d) 168
  /\ exactly (travel_co2 d) 1848
  /\ within (1 # 1000000000000) (total_co2 d) 2019.78
  /\ selected d = Travel
  /\ generate_advice d = join newline travel_advice.
Proof.
  intros d q.
  split; [reflexivity|]. split; [reflexivity|].
  split; [reflexivity|]. split; [reflexivity|].
  split; [apply scenario_exact_values|].
  repeat split; vm_compute; reflexivity.
Qed.

(** * Further properties of the code *)

(** ** The input loop *)

Lemma get_input_skips (skipped inp : list entry) :
  forallb rejected skipped = true -> get_input (skipped ++ inp) = get_input inp.
Proof.
  induction skipped as [|[v|] skipped IH]; simpl; try tauto.
  destruct (v <? 0)%float; [exact IH | discriminate].
Qed.

(** X1: [get_input] returns the first line that parses and is not below zero,
    with the lines after it; every line before it was rejected. *)
Theorem get_input_first_accepted (inp rest : list entry) (v : float) :
  get_input inp = Some (v, rest) <->
  exists skipped,
    inp = skipped ++ Parsed v :: rest
    /\ forallb rejected skipped = true
    /\ (v <? 0)%float = false.
Proof.
  split.
  - induction inp as [|[x|] inp IH]; simpl; try discriminate.
    + destruct (x <? 0)%float eqn:E.
      * intros H. destruct (IH H) as (sk & -> & Hsk & Hv).
        exists (Parsed x :: sk). simpl. now rewrite E, Hsk.
      * intros [= <- <-]. exists []. now rewrite E.
    + intros H. destruct (IH H) as (sk & -> & Hsk & Hv).
      exists (Unparsable :: sk). simpl. now rewrite Hsk.
  - intros (sk & -> & Hsk & Hv).
    rewrite (get_input_skips _ _ Hsk). simpl. now rewrite Hv.
Qed.

(** X2: [get_input] ends in [EOFError] exactly when every remaining line is
    rejected, the empty input included. *)
Theorem get_input_eof (inp : list entry) :
  get_input inp = None <-> forallb rejected inp = true.
Proof.
  induction inp as [|[x|] inp IH]; simpl.
  - tauto.
  - destruct (x <? 0)%float; [exact IH | split; discriminate].
  - exact IH.
Qed.

Lemma SFeqb_refl (x : spec_float) : x <> S754_nan -> SFeqb x x = true.
Proof.
  unfold SFeqb, SFcompare.
  destruct x as [s|s| |s m e]; try destruct s; try reflexivity;
    try congruence; intros _;
    now rewrite Z.compare_refl, Pos.compare_cont_refl.
Qed.

Lemma is_nan_spec (x : float) : is_nan x = true <-> Prim2SF x = S754_nan.
Proof.
  unfold is_nan. rewrite eqb_spec. split.
  - destruct (Prim2SF x) eqn:E; try reflexivity;
      rewrite SFeqb_refl by discriminate; discriminate.
  - now intros ->.
Qed.

(** What passes the check [float(value) < 0]. *)
Lemma not_below_zero (v : float) :
  (v <? 0)%float = false <-> (0 <=? v)%float = true \/ is_nan v = true.
Proof.
  rewrite is_nan_spec, ltb_spec, leb_spec.
  change (Prim2SF 0) with (S754_zero false).
  destruct (Prim2SF v) as [s|s| |s m e]; try destruct s;
    cbv [SFltb SFleb SFcompare];
    (split; [intros H; try discriminate H; auto | intros [H|H]; congruence]).
Qed.

(** X3: The check lets through the values that are at least zero, infinity
    among them, and also [nan], which is not below anything. *)
Theorem get_input_accepts_iff (v : float) (rest : list entry) :
  get_input (Parsed v :: rest) = Some (v, rest)
  <-> (0 <=? v)%float = true \/ is_nan v = true.
Proof.
  rewrite <- not_below_zero. simpl.
  destruct (v <? 0)%float eqn:E; split; try reflexivity; try discriminate.
  intros H. apply get_input_first_accepted in H.
  destruct H as (sk & Hin & _ & Hv). congruence.
Qed.

(** One call of [get_input] takes the first accepted value and leaves the
    later ones. *)
Lemma get_input_accepted (inp : list entry) :
  match get_input inp with
  | None => accepted inp = []
  | Some (v, rest) =>
      accepted inp = v :: accepted rest /\ exists pre, inp = pre ++ rest
  end.
Proof.
  induction inp as [|[x|] inp IH]; simpl; try reflexivity.
  - destruct (x <? 0)%float.
    + destruct (get_input inp) as [[v rest]|]; [|exact IH].
      destruct IH as [IH [pre ->]]. split; [exact IH|].
      now exists (Parsed x :: pre).
    + split; [reflexivity|]. now exists [Parsed x].
  - destruct (get_input inp) as [[v rest]|]; [|exact IH].
    destruct IH as [IH [pre ->]]. split; [exact IH|].
    now exists (Unparsable :: pre).
Qed.

Lemma accepted_app (a b : list entry) : accepted (a ++ b) = accepted a ++ accepted b.
Proof. apply flat_map_app. Qed.

Lemma from_fields_short (l : list float) :
  from_fields (firstn 7 l) = None <-> (List.length l < 7)%nat.
Proof.
  do 7 (destruct l as [|? l]; [simpl; split; [lia | reflexivity]|]).
  simpl. split; [|lia].
  destruct l; discriminate.
Qed.

(** The seven calls of [get_input] in a row. *)
Lemma calculate_footprint_accepted
    (self : CarbonCalculator float) (inp : list entry) :
  match calculate_footprint self inp with
  | None => from_fields (firstn 7 (accepted inp)) = None
  | Some (d, rest) =>
      exists r, from_fields (firstn 7 (accepted inp)) = Some r
                /\ d = emissions self r
                /\ (exists pre, inp = pre ++ rest)
                /\ accepted inp = firstn 7 (accepted inp) ++ accepted rest
  end.
Proof.
  unfold calculate_footprint, bind.
  pose proof (get_input_accepted inp) as H1.
  destruct (get_input inp) as [[v1 r1]|]; [|now rewrite H1].
  destruct H1 as [E1 [p1 P1]]. rewrite E1.
  pose proof (get_input_accepted r1) as H2.
  destruct (get_input r1) as [[v2 r2]|]; [|now rewrite H2].
  destruct H2 as [E2 [p2 P2]]. rewrite E2.
  pose proof (get_input_accepted r2) as H3.
  destruct (get_input r2) as [[v3 r3]|]; [|now rewrite H3].
  destruct H3 as [E3 [p3 P3]]. rewrite E3.
  pose proof (get_input_accepted r3) as H4.
  destruct (get_input r3) as [[v4 r4]|]; [|now rewrite H4].
  destruct H4 as [E4 [p4 P4]]. rewrite E4.
  pose proof (get_input_accepted r4) as H5.
  destruct (get_input r4) as [[v5 r5]|]; [|now rewrite H5].
  destruct H5 as [E5 [p5 P5]]. rewrite E5.
  pose proof (get_input_accepted r5) as H6.
  destruct (get_input r5) as [[v6 r6]|]; [|now rewrite H6].
  destruct H6 as [E6 [p6 P6]]. rewrite E6.
  pose proof (get_input_accepted r6) as H7.
  destruct (get_input r6) as [[v7 r7]|]; [|now rewrite H7].
  destruct H7 as [E7 [p7 P7]]. rewrite E7.
  unfold ret. eexists. repeat split.
  exists (p1 ++ p2 ++ p3 ++ p4 ++ p5 ++ p6 ++ p7).
  subst. now rewrite <- !app_assoc.
Qed.

Lemma calculate_footprint_value
    (self : CarbonCalculator float) (inp : list entry) :
  option_map fst (calculate_footprint self inp)
  = option_map (emissions self) (from_fields (firstn 7 (accepted inp))).
Proof.
  pose proof (calculate_footprint_accepted self inp) as H.
  destruct (calculate_footprint self inp) as [[d rest]|].
  - destruct H as (r & -> & -> & _). reflexivity.
  - now rewrite H.
Qed.

(** X4: [calculate_footprint] computes on the first seven accepted values,
    whatever rejected lines lie between them, and leaves the input after the
    seventh; it ends in [EOFError] exactly when fewer than seven lines are
    accepted. *)
Theorem calculate_footprint_first_seven
    (self : CarbonCalculator float) (inp : list entry) :
  option_map fst (calculate_footprint self inp)
  = option_map (emissions self) (from_fields (firstn 7 (accepted inp)))
  /\ (calculate_footprint self inp = None <-> (List.length (accepted inp) < 7)%nat)
  /\ (forall d rest,
        calculate_footprint self inp = Some (d, rest) ->
        (exists pre, inp = pre ++ rest)
        /\ accepted inp = firstn 7 (accepted inp) ++ accepted rest).
Proof.
  split; [apply calculate_footprint_value|].
  pose proof (calculate_footprint_accepted self inp) as Hmain.
  destruct (calculate_footprint self inp) as [[d rest]|].
  - destruct Hmain as (r & Hr & -> & Hpre & Hacc). split.
    + split; [discriminate|]. intros Hlen.
      apply from_fields_short in Hlen. congruence.
    + intros d' rest' [= <- <-]. now split.
  - split.
    + split; [intros _; now apply from_fields_short | reflexivity].
    + discriminate.
Qed.

Lemma accepted_filter (inp : list entry) :
  accepted (filter (fun e => negb (rejected e)) inp) = accepted inp.
Proof.
  induction inp as [|[x|] inp IH]; simpl; [reflexivity| |exact IH].
  destruct (x <? 0)%float eqn:E; simpl; [exact IH|].
  now rewrite E, IH.
Qed.

(** X5: Mistyped and negative lines leave no trace in the result: with them
    removed from the input the footprint is the same. *)
Theorem calculate_footprint_ignores_rejected
    (self : CarbonCalculator float) (inp : list entry) :
  option_map fst
    (calculate_footprint self (filter (fun e => negb (rejected e)) inp))
  = option_map fst (calculate_footprint self inp).
Proof.
  now rewrite !calculate_footprint_value, accepted_filter.
Qed.

(** ** Values that are not numbers *)

Ltac nan_operand :=
  rewrite !is_nan_spec;
  rewrite ?mul_spec, ?add_spec, ?sub_spec, ?div_spec;
  let H := fresh in intros H; rewrite H;
  match goal with
  | |- context [Prim2SF ?b] => destruct (Prim2SF b)
  | _ => idtac
  end; reflexivity.

Lemma nan_mul_l (a b : float) : is_nan a = true -> is_nan (a * b) = true.
Proof. nan_operand. Qed.

Lemma nan_mul_r (a b : float) : is_nan b = true -> is_nan (a * b) = true.
Proof. nan_operand. Qed.

Lemma nan_add_l (a b : float) : is_nan a = true -> is_nan (a + b) = true.
Proof. nan_operand. Qed.

Lemma nan_add_r (a b : float) : is_nan b = true -> is_nan (a + b) = true.
Proof. nan_operand. Qed.

Lemma nan_sub_r (a b : float) : is_nan b = true -> is_nan (a - b) = true.
Proof. nan_operand. Qed.

Lemma nan_div_l (a b : float) : is_nan a = true -> is_nan (a / b) = true.
Proof. nan_operand. Qed.

(** No comparison with [nan] holds. *)
Lemma gt_nan (a b : float) :
  is_nan a = true -> gt a b = false /\ gt b a = false.
Proof.
  unfold gt. rewrite is_nan_spec, !ltb_spec. intros ->.
  split; [destruct (Prim2SF b) | ]; reflexivity.
Qed.

Lemma nan_category_selects_fallback (data : Footprint float) :
  existsb is_nan [energy_co2 data; waste_co2 data; travel_co2 data] = true ->
  selected data = Fallback.
Proof.
  cbn [existsb]. rewrite orb_false_r, !orb_true_iff.
  unfold selected, energy_dominant, waste_dominant, travel_dominant.
  intros [H | [H | H]];
    destruct (gt_nan _ (energy_co2 data) H) as [E1 E2];
    destruct (gt_nan _ (waste_co2 data) H) as [W1 W2];
    destruct (gt_nan _ (travel_co2 data) H) as [T1 T2];
    rewrite ?E1, ?E2, ?W1, ?W2, ?T1, ?T2, ?andb_false_r; reflexivity.
Qed.

(** X6: Each category compares itself with both others, so one category that
    is [nan] switches all three conditions off: the advice is the fallback. *)
Theorem nan_category_gives_fallback (data : Footprint float) :
  existsb is_nan [energy_co2 data; waste_co2 data; travel_co2 data] = true ->
  generate_advice data = join newline fallback_advice.
Proof.
  intros H. rewrite generate_advice_selected.
  now rewrite (nan_category_selects_fallback data H).
Qed.

Lemma nan_category_gives_fallback_witness :
  generate_advice (mkFootprint 5000 nan 20 nan) = join newline fallback_advice.
Proof.
  apply (nan_category_gives_fallback (mkFootprint 5000 nan 20 nan)).
  reflexivity.
Defined.

(** A field that is [nan] makes the category that reads it [nan]. *)
Lemma nan_field_nan_category
    (self : CarbonCalculator float) (r : InputRecord float) (f : field) :
  is_nan (get_field f r) = true ->
  is_nan (co2 (category_of f) (emissions self r)) = true.
Proof.
  destruct r as [e g u w p k l].
  destruct f;
    cbn [get_field category_of co2 emissions energy_co2 waste_co2 travel_co2
         electricity_bill gas_bill fuel_bill waste_kg recycle_percent km_year
         fuel_efficiency nadd nsub nmul ndiv float_number];
    intros H.
  - now apply nan_mul_l, nan_add_l, nan_add_l, nan_mul_l.
  - now apply nan_mul_l, nan_add_l, nan_add_r, nan_mul_l.
  - now apply nan_mul_l, nan_add_r, nan_mul_l.
  - now apply nan_mul_l, nan_mul_l.
  - now apply nan_mul_l, nan_mul_r, nan_sub_r, nan_div_l.
  - now apply nan_mul_l, nan_mul_l, nan_div_l.
  - now apply nan_mul_l, nan_mul_r.
Qed.

Lemma get_input_unrejected (v : float) (rest : list entry) :
  (v <? 0)%float = false -> get_input (Parsed v :: rest) = Some (v, rest).
Proof. intros H. simpl. now rewrite H. Qed.

(** Lines that are all accepted are read one per prompt. *)
Lemma calculate_footprint_unrejected
    (self : CarbonCalculator float) (r : InputRecord float) (rest : list entry) :
  forallb (fun v => negb (v <? 0)%float) (fields r) = true ->
  calculate_footprint self (typed r ++ rest) = Some (emissions self r, rest).
Proof.
  destruct r as [e g u w p k l]. unfold typed, fields.
  cbn [forallb map app electricity_bill gas_bill fuel_bill waste_kg
       recycle_percent km_year fuel_efficiency].
  rewrite !andb_true_iff, !negb_true_iff.
  intros (He & Hg & Hu & Hw & Hp & Hk & Hl & _).
  unfold calculate_footprint, bind.
  now rewrite (get_input_unrejected _ _ He), (get_input_unrejected _ _ Hg),
    (get_input_unrejected _ _ Hu), (get_input_unrejected _ _ Hw),
    (get_input_unrejected _ _ Hp), (get_input_unrejected _ _ Hk),
    (get_input_unrejected _ _ Hl).
Qed.

(** X7: typing [nan] at any prompt is accepted; the category that reads
    that field is then [nan], and the advice is the fallback whatever the
    other six values are. *)
Theorem nan_input_gives_fallback
    (self : CarbonCalculator float) (r : InputRecord float) (rest : list entry)
    (f : field) :
  forallb (fun v => negb (v <? 0)%float) (fields r) = true ->
  is_nan (get_field f r) = true ->
  calculate_footprint self (typed r ++ rest) = Some (emissions self r, rest)
  /\ is_nan (co2 (category_of f) (emissions self r)) = true
  /\ generate_advice (emissions self r) = join newline fallback_advice.
Proof.
  intros Hacc Hnan. split; [now apply calculate_footprint_unrejected|].
  pose proof (nan_field_nan_category self r f Hnan) as Hcat.
  split; [exact Hcat|].
  rewrite generate_advice_selected.
  rewrite (nan_category_selects_fallback (emissions self r)); [reflexivity|].
  cbn [existsb]. destruct f; cbn [category_of co2] in Hcat;
    rewrite Hcat, ?orb_true_r; reflexivity.
Qed.

Lemma nan_input_gives_fallback_witness :
  let r := mkInput 100 50 0 200 50 nan 8 in
  is_nan (travel_co2 (emissions __init__ r)) = true
  /\ generate_advice (emissions __init__ r) = join newline fallback_advice.
Proof.
  apply (nan_input_gives_fallback __init__
           (mkInput 100 50 0 200 50 nan 8) [] KmYear); reflexivity.
Defined.

(** ** Figures of the table *)

Lemma round_half_even_bound (q : Q) :
  (0 <= q)%Q ->
  (0 <= round_half_even q)%Z
  /\ (Qabs (inject_Z (round_half_even q) - q) <= 1 # 2)%Q.
Proof.
  intros Hq. unfold round_half_even.
  pose proof (Qfloor_le q) as Hlo.
  pose proof (Qlt_floor q) as Hhi. rewrite inject_Z_plus in Hhi.
  assert (Hn : (0 <= Qfloor q)%Z)
    by (rewrite <- (Qfloor_Z 0); now apply Qfloor_resp_le).
  generalize dependent (Qfloor q). intros n Hlo Hhi Hn.
  change (inject_Z 1) with 1%Q in Hhi.
  destruct (Qcompare_spec (q - inject_Z n) (1 # 2)) as [E|L|G].
  - destruct (Z.even n); (split; [lia|]);
      rewrite ?inject_Z_plus; change (inject_Z 1) with 1%Q;
      apply Qabs_Qle_condition; split; lra.
  - split; [lia|]. apply Qabs_Qle_condition; split; lra.
  - split; [lia|]. rewrite inject_Z_plus. change (inject_Z 1) with 1%Q.
    apply Qabs_Qle_condition; split; lra.
Qed.

Lemma hundredths_bound (v : Q) :
  (0 <= v)%Q ->
  (0 <= hundredths v)%Z
  /\ (Qabs (inject_Z (hundredths v) / 100 - v) <= 1 # 200)%Q.
Proof.
  intros Hv. unfold hundredths.
  destruct (round_half_even_bound (v * 100)) as [Hn Hb]; [lra|].
  split; [exact Hn|].
  apply Qabs_Qle_condition in Hb. apply Qabs_Qle_condition.
  generalize dependent (inject_Z (round_half_even (v * 100))).
  intros n Hb. unfold Qdiv. change (/ 100)%Q with (1 # 100)%Q. split; lra.
Qed.

(** X8: Every finite figure of the table is the computed value correctly
    rounded: what is printed lies within half a hundredth of it. *)
Theorem format_2f_accuracy (x : float) (q : Q) :
  exactly x q ->
  exists negative n,
    format_2f x = fixed2 negative n
    /\ (0 <= n)%Z
    /\ (Qabs (shown negative n - q) <= 1 # 200)%Q.
Proof.
  unfold exactly, exact, format_2f, SF2Q.
  destruct (Prim2SF x) as [s|s| |s m e]; try contradiction.
  - intros Hq. exists s, 0%Z. split; [reflexivity|]. split; [lia|].
    rewrite <- Hq. destruct s; vm_compute; discriminate.
  - set (v := (inject_Z (Z.pos m) * 2 ^ e)%Q).
    assert (Hv : (0 <= v)%Q).
    { unfold v. apply Qmult_le_0_compat; [|apply Qpower_0_le; lra].
      change 0%Q with (inject_Z 0). rewrite <- Zle_Qle. lia. }
    destruct (hundredths_bound v Hv) as [Hn Hb].
    intros Hq. exists s, (hundredths v). split; [reflexivity|].
    split; [exact Hn|].
    rewrite <- Hq. unfold shown.
    apply Qabs_Qle_condition in Hb. apply Qabs_Qle_condition.
    generalize dependent (inject_Z (hundredths v) / 100)%Q. intros k Hb.
    destruct s; split; lra.
Qed.

Lemma format_2f_accuracy_witness :
  exists negative n,
    format_2f 0.125 = fixed2 negative n
    /\ (0 <= n)%Z
    /\ (Qabs (shown negative n - (1 # 8)) <= 1 # 200)%Q.
Proof.
  apply (format_2f_accuracy 0.125 (1 # 8)). vm_compute. reflexivity.
Defined.

Lemma two_digits_two_decimals (k : Z) :
  (0 <= k < 100)%Z -> two_decimals (two_digits k) = true.
Proof.
  intros Hk.
  assert (H : forallb (fun i => two_decimals (two_digits (Z.of_nat i)))
                      (seq 0 100) = true) by (vm_compute; reflexivity).
  rewrite forallb_forall in H. specialize (H (Z.to_nat k)).
  rewrite Z2Nat.id in H by lia. apply H. apply in_seq. lia.
Qed.

Lemma append_assoc (a b c : string) : ((a ++ b) ++ c = a ++ (b ++ c))%string.
Proof. induction a as [|x a IH]; simpl; [reflexivity | now rewrite IH]. Qed.

(** X9: Every finite figure is printed with a point and exactly two decimals. *)
Theorem format_2f_two_decimals (x : float) :
  is_finite x = true ->
  exists body cents,
    format_2f x = (body ++ "." ++ cents)%string
    /\ two_decimals cents = true.
Proof.
  intros Hfin. unfold format_2f.
  assert (Hshape : forall s n, exists body cents,
             fixed2 s n = (body ++ "." ++ cents)%string
             /\ two_decimals cents = true).
  { intros s n. unfold fixed2.
    exists ((if s then "-" else "") ++ decimal (n / 100))%string,
           (two_digits (n mod 100)).
    split; [now rewrite append_assoc|].
    apply two_digits_two_decimals. apply Z.mod_pos_bound. lia. }
  destruct (is_finite_cases x Hfin) as [[s ->]|(s & m & e & ->)];
    apply Hshape.
Qed.

Lemma format_2f_two_decimals_witness :
  exists body cents,
    format_2f 167.99999999999989 = (body ++ "." ++ cents)%string
    /\ two_decimals cents = true.
Proof.
  apply (format_2f_two_decimals 167.99999999999989). reflexivity.
Defined.

(** X10: A value below zero is printed with its minus sign, also when it rounds
    to zero hundredths. *)
Theorem format_2f_minus (x : float) :
  (x <? 0)%float = true ->
  exists rest, format_2f x = ("-" ++ rest)%string.
Proof.
  rewrite ltb_spec. change (Prim2SF 0) with (S754_zero false).
  unfold format_2f, fixed2.
  destruct (Prim2SF x) as [s|s| |s m e]; try destruct s;
    cbv [SFltb SFcompare]; try discriminate; intros _; eexists; reflexivity.
Qed.

Lemma format_2f_minus_witness :
  exists rest, format_2f (-0.001) = ("-" ++ rest)%string
               /\ format_2f (-0.001) = "-0.00".
Proof.
  destruct (format_2f_minus (-0.001) eq_refl) as [rest H].
  exists rest. split; [exact H | reflexivity].
Defined.

(** ** The report file *)

Lemma length_append (a b : string) :
  String.length (a ++ b) = (String.length a + String.length b)%nat.
Proof. induction a as [|x a IH]; simpl; [reflexivity | now rewrite IH]. Qed.

Lemma append_cancel_l (a x y : string) : (a ++ x = a ++ y)%string -> x = y.
Proof. induction a as [|c a IH]; simpl; [tauto | intros [= H]; auto]. Qed.

Lemma append_cancel_r (s x y : string) : (x ++ s = y ++ s)%string -> x = y.
Proof.
  revert y. induction x as [|c x IH]; intros [|d y] H; simpl in H.
  - reflexivity.
  - apply (f_equal String.length) in H. simpl in H.
    rewrite length_append in H. lia.
  - apply (f_equal String.length) in H. simpl in H.
    rewrite length_append in H. lia.
  - injection H as -> H. f_equal. now apply IH.
Qed.

(** X11: Two organizations with different names never share a report file. *)
Theorem report_path_injective (name1 name2 : string) :
  name1 <> name2 -> report_path name1 <> report_path name2.
Proof.
  intros Hne H. apply Hne. unfold report_path in H.
  apply append_cancel_l in H. now apply append_cancel_r in H.
Qed.

Lemma report_path_injective_witness :
  report_path "Acme" <> report_path "Acme Ltd".
Proof.
  apply (report_path_injective "Acme" "Acme Ltd"). discriminate.
Defined.

(** ** The document *)

Lemma add_row_calls (col_width : float) (self : PDFReport.t) (row : list string) :
  PDFReport.add_row col_width self row
  = PDFReport.mk (PDFReport.title self) (PDFReport.w self)
      (PDFReport.calls self ++ table_calls col_width [row]).
Proof.
  unfold PDFReport.add_row, table_calls. cbn [flat_map]. rewrite app_nil_r.
  revert self. induction row as [|item row IH]; intros self.
  - reflexivity.
  - cbn [fold_left map]. rewrite IH. unfold PDFReport.call. cbn.
    now rewrite <- !app_assoc.
Qed.

Lemma add_rows_calls (col_width : float) (self : PDFReport.t)
    (rows : list (list string)) :
  fold_left (PDFReport.add_row col_width) rows self
  = PDFReport.mk (PDFReport.title self) (PDFReport.w self)
      (PDFReport.calls self ++ table_calls col_width rows).
Proof.
  revert self. induction rows as [|row rows IH]; intros self.
  - cbn. rewrite app_nil_r. now destruct self.
  - cbn [fold_left]. rewrite IH, add_row_calls. cbn.
    unfold table_calls. cbn [flat_map]. now rewrite app_nil_r, <- !app_assoc.
Qed.

Lemma bordered_cells_table (col_width : float) (rows : list (list string)) :
  bordered_cells (table_calls col_width rows)
  = map (pair col_width) (List.concat rows).
Proof.
  unfold bordered_cells, table_calls.
  induction rows as [|row rows IH]; [reflexivity|].
  cbn [flat_map List.concat]. rewrite !flat_map_app, map_app, IH. f_equal.
  cbn. rewrite app_nil_r.
  induction row as [|item row IHr]; [reflexivity|].
  cbn. now rewrite IHr.
Qed.

Lemma line_breaks_table (col_width : float) (rows : list (list string)) :
  line_breaks (table_calls col_width rows) = List.length rows.
Proof.
  unfold line_breaks, table_calls.
  induction rows as [|row rows IH]; [reflexivity|].
  cbn [flat_map]. rewrite !filter_app, !length_app, IH. cbn.
  replace (filter _ (map _ row)) with (@nil fpdf_call); [reflexivity|].
  induction row as [|item row IHr]; [reflexivity | exact IHr].
Qed.

(** X12: [add_table] raises [ZeroDivisionError] on an empty header list, before
    it draws anything and whatever the rows; otherwise it appends, to the
    calls already made, one bordered cell per header and per item of every
    row, each as wide as the page divided by the number of headers, and one
    line break per row, the header row included.  Rows are not checked
    against the headers. *)
Theorem add_table_draws
    (self : PDFReport.t) (headers : list string) (data : list (list string)) :
  match headers with
  | [] => PDFReport.add_table self headers data = (self, Some ZeroDivisionError)
  | _ :: _ =>
      let col_width :=
        (PDFReport.w self / of_int (Z.of_nat (List.length headers)))%float in
      let drawn := table_calls col_width (headers :: data) in
      PDFReport.add_table self headers data
      = (PDFReport.mk (PDFReport.title self) (PDFReport.w self)
           (PDFReport.calls self ++ drawn), None)
      /\ bordered_cells drawn = map (pair col_width) (headers ++ List.concat data)
      /\ line_breaks drawn = S (List.length data)
  end.
Proof.
  destruct headers as [|h headers]; [reflexivity|].
  intros col_width drawn. split; [|split].
  - change (PDFReport.add_table self (h :: headers) data)
      with (fold_left (PDFReport.add_row col_width) data
              (PDFReport.add_row col_width self (h :: headers)), @None exn).
    subst drawn. clearbody col_width.
    rewrite add_rows_calls, add_row_calls.
    cbn [PDFReport.title PDFReport.w PDFReport.calls].
    unfold table_calls. cbn [flat_map].
    now rewrite app_nil_r, <- !app_assoc.
  - apply bordered_cells_table.
  - apply line_breaks_table.
Qed.

Lemma generate_report_output
    (fs : file_system) (page_w : float) (data : Footprint float) (name : string) :
  generate_report fs page_w data name
  = match fs (report_path name) with
    | Some e => (report_document page_w data name, Some e)
    | None =>
        (PDFReport.call (report_document page_w data name)
           (output (report_path name)), None)
    end.
Proof.
  unfold report_document, generate_report.
  change (PDFReport.add_table _ headers (table_data data))
    with (fst (PDFReport.add_table
                 (PDFReport.add_report_section
                    (PDFReport.add_report_section
                       (PDFReport.__init__ page_w (report_title name))
                       "Problem Statement" (problem_statement name))
                    "Summaries of the Analysis" "")
                 headers (table_data data)), @None exn).
  cbv iota. destruct (fs (report_path name)); reflexivity.
Qed.

Lemma report_document_outputs
    (page_w : float) (data : Footprint float) (name : string) :
  outputs (PDFReport.calls (report_document page_w data name)) = [].
Proof. reflexivity. Qed.

Lemma outputs_call (pdf : PDFReport.t) (name : string) :
  outputs (PDFReport.calls (PDFReport.call pdf (output name)))
  = outputs (PDFReport.calls pdf) ++ [name].
Proof. unfold outputs, PDFReport.call. cbn. now rewrite flat_map_app. Qed.


(** X14: [main] takes the first line as the organization's name and the
    first seven accepted values after it.  It ends in [EOFError], before
    any report is attempted, when the input is empty or fewer than seven
    later lines are accepted; otherwise it builds the report of those seven
    values and ends as [pdf.output] does for the organization's file: with
    the exception that call raises, or with the one report written. *)
Theorem main_outcome
    (fs : file_system) (page_w : float) (typed_lines : list line) :
  match typed_lines with
  | [] => main fs page_w typed_lines = inl EOFError
  | first :: rest =>
      match from_fields (firstn 7 (accepted (map as_float rest))) with
      | None =>
          (List.length (accepted (map as_float rest)) < 7)%nat
          /\ main fs page_w typed_lines = inl EOFError
      | Some r =>
          (7 <= List.length (accepted (map as_float rest)))%nat
          /\ let pdf := report_document page_w (emissions __init__ r)
                          (text first) in
             match fs (report_path (text first)) with
             | Some e => main fs page_w typed_lines = inl e
             | None =>
                 exists written,
                   main fs page_w typed_lines = inr written
                   /\ PDFReport.calls written
                      = PDFReport.calls pdf ++ [output (report_path (text first))]
                   /\ outputs (PDFReport.calls written)
                      = [report_path (text first)]
             end
      end
  end.
Proof.
  destruct typed_lines as [|first rest]; [reflexivity|].
  unfold main.
  pose proof (calculate_footprint_accepted __init__ (map as_float rest)) as H.
  destruct (calculate_footprint __init__ (map as_float rest)) as [[d tail]|].
  - destruct H as (r & Hr & -> & _). rewrite Hr. split.
    + destruct (Nat.lt_ge_cases
                  (List.length (accepted (map as_float rest))) 7) as [Hlt|Hge];
        [|exact Hge].
      apply from_fields_short in Hlt. congruence.
    + cbv zeta. rewrite generate_report_output.
      destruct (fs (report_path (text first))); [reflexivity|].
      eexists. split; [reflexivity|]. split; [reflexivity|].
      now rewrite outputs_call, report_document_outputs.
  - rewrite H. split; [now apply from_fields_short | reflexivity].
Qed.

(** ** Waste without recycling *)

Lemma eqb_zero (x : float) : (x =? 0)%float = true -> x = 0%float \/ x = (-0)%float.
Proof.
  rewrite eqb_spec. change (Prim2SF 0) with (S754_zero false).
  intros H. rewrite <- (SF2Prim_Prim2SF x).
  destruct (Prim2SF x) as [s|s| |s m e]; try destruct s;
    try discriminate H; [right | left]; reflexivity.
Qed.

(** X15: with nothing recycled the waste emission is the plain product
    [waste_kg * 0.57 * 12], for every [waste_kg]: subtracting a zero of
    either sign leaves the factor as it is. *)
Theorem no_recycling_waste (r : InputRecord float) :
  (recycle_percent r =? 0)%float = true ->
  waste_co2 (emissions __init__ r) = (waste_kg r * 0.57 * 12)%float.
Proof.
  intros H.
  change (waste_co2 (emissions __init__ r))
    with (waste_kg r * (0.57 - recycle_percent r / 100) * 12)%float.
  destruct (eqb_zero _ H) as [-> | ->]; reflexivity.
Qed.

Lemma no_recycling_waste_witness :
  waste_co2 (emissions __init__ (mkInput 0 0 0 10 0 0 0)) = (10 * 0.57 * 12)%float.
Proof.
  apply (no_recycling_waste (mkInput 0 0 0 10 0 0 0)). reflexivity.
Defined.

(** * Scaling one field by a power of two *)

Section PowerOfTwo.

Local Open Scope Z_scope.

Lemma Zdigits2_nonneg (m : Z) : 0 <= Zdigits2 m.
Proof. destruct m; simpl; lia. Qed.

Lemma shr_fexp_shift (M E : Z) (l : location) (j : Z) :
  -1021 <= E -> -1021 <= E + j ->
  shr_fexp prec emax M (E + j) l
  = (fst (shr_fexp prec emax M E l), snd (shr_fexp prec emax M E l) + j)
  /\ E <= snd (shr_fexp prec emax M E l).
Proof.
  intros HE HEj. unfold shr_fexp, fexp, SpecFloat.emin.
  change (3 - emax - prec) with (-1074). change prec with 53.
  pose proof (Zdigits2_nonneg M) as Hd.
  rewrite !Z.max_l by lia.
  replace (Zdigits2 M + (E + j) - 53 - (E + j)) with (Zdigits2 M - 53) by lia.
  replace (Zdigits2 M + E - 53 - E) with (Zdigits2 M - 53) by lia.
  unfold shr. destruct (Zdigits2 M - 53) as [|n|n]; simpl; split; try reflexivity; try lia.
  f_equal. lia.
Qed.

Lemma bra_shift (s : bool) (M E : Z) (l : location) (j : Z) :
  -1021 <= E -> -1021 <= E + j ->
  exists mm ee,
    E <= ee
    /\ binary_round_aux prec emax s M E l = result_of s mm ee
    /\ binary_round_aux prec emax s M (E + j) l = result_of s mm (ee + j).
Proof.
  intros HE HEj. unfold binary_round_aux.
  destruct (shr_fexp_shift M E l j HE HEj) as [-> H1].
  destruct (shr_fexp prec emax M E l) as [mrs' e'].
  cbn [fst snd] in *.
  set (M1 := round_nearest_even (shr_m mrs') (loc_of_shr_record mrs')).
  destruct (shr_fexp_shift M1 e' loc_Exact j) as [-> H2]; [lia|lia|].
  destruct (shr_fexp prec emax M1 e' loc_Exact) as [mrs'' e''].
  cbn [fst snd] in *.
  exists (shr_m mrs''), e''. split; [lia|]. split; reflexivity.
Qed.

Lemma result_of_shift (s : bool) (mm ee j : Z) :
  SF_finite (result_of s mm ee) = true ->
  SF_finite (result_of s mm (ee + j)) = true ->
  result_of s mm (ee + j) = shift j (result_of s mm ee).
Proof.
  unfold result_of. destruct mm; try reflexivity.
  destruct (ee <=? 971), (ee + j <=? 971); simpl; congruence.
Qed.

Lemma result_of_exp_ge (s : bool) (mm ee lo : Z) :
  lo <= ee -> exp_ge lo (result_of s mm ee).
Proof.
  unfold result_of. destruct mm; simpl; auto. destruct (ee <=? 971); simpl; auto.
Qed.

(** Scaling the left operand of a product. *)
Lemma mul_shift_l (j lo lc : Z) (a c : spec_float) :
  -1021 <= lo + lc ->
  SF_finite a = true -> exp_ge lo a -> exp_ge lo (shift j a) ->
  SF_finite c = true -> exp_ge lc c ->
  SF_finite (SF64mul a c) = true ->
  SF_finite (SF64mul (shift j a) c) = true ->
  SF64mul (shift j a) c = shift j (SF64mul a c)
  /\ exp_ge (lo + lc) (SF64mul a c)
  /\ exp_ge (lo + lc) (shift j (SF64mul a c)).
Proof.
  intros Hlo Ha La Laj Hc Lc Hp Hpj.
  destruct a as [sa| | |sa ma ea]; try discriminate;
    destruct c as [sc| | |sc mc ec]; try discriminate;
    try (simpl; repeat split; exact I).
  simpl in La, Laj, Lc. cbn [shift] in *.
  unfold SF64mul, SFmul in *.
  replace (ea + j + ec) with (ea + ec + j) in * by lia.
  destruct (bra_shift (xorb sa sc) (Z.pos (ma * mc)) (ea + ec) loc_Exact j)
    as (mm & ee & Hee & E1 & E2); [lia|lia|].
  rewrite E1, E2 in *. split; [now apply result_of_shift|].
  split.
  - apply result_of_exp_ge. lia.
  - rewrite <- result_of_shift by assumption. apply result_of_exp_ge. lia.
Qed.

(** Scaling the right operand of a product. *)
Lemma mul_shift_r (j lo lc : Z) (a c : spec_float) :
  -1021 <= lo + lc ->
  SF_finite a = true -> exp_ge lo a -> exp_ge lo (shift j a) ->
  SF_finite c = true -> exp_ge lc c ->
  SF_finite (SF64mul c a) = true ->
  SF_finite (SF64mul c (shift j a)) = true ->
  SF64mul c (shift j a) = shift j (SF64mul c a)
  /\ exp_ge (lo + lc) (SF64mul c a)
  /\ exp_ge (lo + lc) (shift j (SF64mul c a)).
Proof.
  intros Hlo Ha La Laj Hc Lc Hp Hpj.
  destruct a as [sa| | |sa ma ea]; try discriminate;
    destruct c as [sc| | |sc mc ec]; try discriminate;
    try (simpl; repeat split; exact I).
  simpl in La, Laj, Lc. cbn [shift] in *.
  unfold SF64mul, SFmul in *.
  replace (ec + (ea + j)) with (ec + ea + j) in * by lia.
  destruct (bra_shift (xorb sc sa) (Z.pos (mc * ma)) (ec + ea) loc_Exact j)
    as (mm & ee & Hee & E1 & E2); [lia|lia|].
  rewrite E1, E2 in *. split; [now apply result_of_shift|].
  split.
  - apply result_of_exp_ge. lia.
  - rewrite <- result_of_shift by assumption. apply result_of_exp_ge. lia.
Qed.

Lemma div_core_shift (m1 : positive) (e1 : Z) (m2 : positive) (e2 j : Z) :
  Z.pos (digits2_pos m2) <= 53 ->
  -968 <= e1 - e2 -> -968 <= e1 + j - e2 ->
  exists q e' l,
    e1 - e2 - 105 <= e'
    /\ SFdiv_core_binary prec emax (Z.pos m1) e1 (Z.pos m2) e2 = (q, e', l)
    /\ SFdiv_core_binary prec emax (Z.pos m1) (e1 + j) (Z.pos m2) e2
       = (q, e' + j, l).
Proof.
  intros Hd H1 H2. unfold SFdiv_core_binary, fexp, SpecFloat.emin.
  change (3 - emax - prec) with (-1074). change prec with 53.
  cbn [Zdigits2].
  assert (Hd1 : 1 <= Z.pos (digits2_pos m1)) by lia.
  rewrite !Z.max_l by lia.
  replace (Z.pos (digits2_pos m1) + (e1 + j) - (Z.pos (digits2_pos m2) + e2) - 53)
    with (Z.pos (digits2_pos m1) + e1 - (Z.pos (digits2_pos m2) + e2) - 53 + j)
    by lia.
  replace (e1 + j - e2) with (e1 - e2 + j) by lia.
  rewrite Z.add_min_distr_r.
  set (e' := Z.min _ (e1 - e2)).
  replace (e1 - e2 + j - (e' + j)) with (e1 - e2 - e') by lia.
  destruct (Z.div_eucl _ (Z.pos m2)) as [q r].
  exists q, e', (new_location (Z.pos m2) r).
  split; [unfold e'; lia|]. split; reflexivity.
Qed.

(** Scaling the dividend of a quotient. *)
Lemma div_shift_l (j lo : Z) (a : spec_float) (sc : bool) (mc : positive) (ec : Z) :
  Z.pos (digits2_pos mc) <= 53 ->
  -916 <= lo - ec ->
  SF_finite a = true -> exp_ge lo a -> exp_ge lo (shift j a) ->
  SF_finite (SF64div a (S754_finite sc mc ec)) = true ->
  SF_finite (SF64div (shift j a) (S754_finite sc mc ec)) = true ->
  SF64div (shift j a) (S754_finite sc mc ec)
  = shift j (SF64div a (S754_finite sc mc ec))
  /\ exp_ge (lo - ec - 105) (SF64div a (S754_finite sc mc ec))
  /\ exp_ge (lo - ec - 105) (shift j (SF64div a (S754_finite sc mc ec))).
Proof.
  intros Hd Hlo Ha La Laj Hp Hpj.
  destruct a as [sa| | |sa ma ea]; try discriminate;
    try (simpl; repeat split; exact I).
  simpl in La, Laj. cbn [shift] in *.
  unfold SF64div, SFdiv in *.
  destruct (div_core_shift ma ea mc ec j Hd) as (q & e' & l & He' & E1 & E2);
    [lia|lia|].
  rewrite E1, E2 in *.
  destruct (bra_shift (xorb sa sc) q e' l j) as (mm & ee & Hee & B1 & B2);
    [lia|lia|].
  rewrite B1, B2 in *. split; [now apply result_of_shift|].
  split.
  - apply result_of_exp_ge. lia.
  - rewrite <- result_of_shift by assumption. apply result_of_exp_ge. lia.
Qed.

Lemma valid_normal (s : bool) (m : positive) (e : Z) :
  valid_binary (S754_finite s m e) = true ->
  e <= 971 /\ (-1074 < e -> digits2_pos m = 53%positive).
Proof.
  unfold SpecFloat.valid_binary, bounded, canonical_mantissa, fexp, SpecFloat.emin.
  change (3 - emax - prec) with (-1074). change (emax - prec) with 971.
  change prec with 53.
  intros [H1 H2]%andb_true_iff. apply Z.eqb_eq in H1. apply Z.leb_le in H2.
  split; [exact H2|]. intros He. lia.
Qed.

Lemma pow2_mul (s : bool) (m : positive) (e j : Z) :
  digits2_pos m = 53%positive ->
  -1074 <= e + j <= 971 ->
  SF64mul (S754_finite false 4503599627370496 (j - 52)) (S754_finite s m e)
  = S754_finite s m (e + j).
Proof.
  intros Hd Hr. unfold SF64mul, SFmul.
  cbn [xorb Pos.mul].
  unfold binary_round_aux, shr_fexp, fexp, SpecFloat.emin.
  change (3 - emax - prec) with (-1074). change prec with 53.
  cbn [Zdigits2 digits2_pos]. rewrite Hd. cbn [Pos.succ].
  replace (Z.max (105 + (j - 52 + e) - 53) (-1074) - (j - 52 + e)) with 52
    by lia.
  cbn [shr iter_pos shr_1 shr_record_of_loc orb shr_m loc_of_shr_record
       round_nearest_even Zdigits2].
  rewrite Hd.
  replace (Z.max (53 + (j - 52 + e + 52) - 53) (-1074) - (j - 52 + e + 52))
    with 0 by lia.
  cbn [shr shr_m shr_record_of_loc].
  change (emax - 53) with 971.
  replace (j - 52 + e + 52) with (e + j) by lia.
  now rewrite (proj2 (Z.leb_le _ _)) by lia.
Qed.


Lemma is_finite_SF (x : float) : is_finite x = SF_finite (Prim2SF x).
Proof.
  unfold is_finite, is_nan, is_infinity. rewrite !eqb_spec, abs_spec.
  change (Prim2SF infinity) with (S754_infinity false).
  destruct (Prim2SF x) as [s|s| |s m e] eqn:E; try (destruct s; reflexivity);
    try reflexivity.
  rewrite SFeqb_refl by discriminate. reflexivity.
Qed.

Lemma mul_finite_inv (a b : float) :
  is_finite (a * b)%float = true -> is_finite a = true /\ is_finite b = true.
Proof.
  rewrite !is_finite_SF, mul_spec.
  destruct (Prim2SF a), (Prim2SF b); simpl; try discriminate; split; reflexivity.
Qed.

Lemma div_finite_inv (a c : float) :
  is_finite (a / c)%float = true -> is_finite a = true.
Proof.
  rewrite !is_finite_SF, div_spec.
  destruct (Prim2SF a), (Prim2SF c); simpl; try discriminate; reflexivity.
Qed.

Lemma power_of_two_spec (k : float) (j : Z) :
  power_of_two k = Some j ->
  Prim2SF k = S754_finite false 4503599627370496 (j - 52).
Proof.
  unfold power_of_two. destruct (Prim2SF k) as [s|s| |s m e]; try discriminate.
  destruct s; try discriminate.
  destruct (Pos.eqb_spec m 4503599627370496) as [->|]; try discriminate.
  intros [= <-]. f_equal. lia.
Qed.

Lemma exponent_in_spec (lo hi : Z) (x : float) :
  exponent_in lo hi x = true ->
  exists s m e, Prim2SF x = S754_finite s m e /\ lo <= e <= hi.
Proof.
  unfold exponent_in. destruct (Prim2SF x) as [s|s| |s m e]; try discriminate.
  intros [H1 H2]%andb_true_iff. exists s, m, e. split; [reflexivity|lia].
Qed.

Lemma exponent_in_exp_ge (lo hi : Z) (x : float) :
  exponent_in lo hi x = true -> exp_ge lo (Prim2SF x).
Proof.
  intros (s & m & e & -> & H)%exponent_in_spec. simpl. lia.
Qed.

(** The product of a power of two and a normal number in range. *)
Lemma scaled_start (k : float) (j lo hi : Z) (x : float) :
  power_of_two k = Some j ->
  exponent_in lo hi x = true ->
  -1074 < lo -> -1074 <= lo + j -> hi + j <= 971 ->
  scaled j (Z.min lo (lo + j)) x (k * x)%float.
Proof.
  intros Hk (s & m & e & Hx & He)%exponent_in_spec Hlo Hj1 Hj2.
  pose proof (Prim2SF_valid x) as Hv. rewrite Hx in Hv.
  destruct (valid_normal _ _ _ Hv) as [_ Hd].
  unfold scaled. rewrite mul_spec, (power_of_two_spec _ _ Hk), Hx.
  rewrite pow2_mul by (try apply Hd; lia).
  simpl. repeat split; lia.
Qed.

Lemma scaled_mul_l (j lo lc : Z) (a a' c : float) :
  scaled j lo a a' -> exp_ge lc (Prim2SF c) -> -1021 <= lo + lc ->
  is_finite (a * c)%float = true -> is_finite (a' * c)%float = true ->
  scaled j (lo + lc) (a * c)%float (a' * c)%float.
Proof.
  intros (Ha' & La & La') Lc Hlo Hf Hf'.
  destruct (mul_finite_inv _ _ Hf) as [Fa Fc].
  rewrite is_finite_SF in Fa, Fc, Hf, Hf'.
  rewrite mul_spec in Hf, Hf'. rewrite Ha' in Hf', La'.
  unfold scaled. rewrite !mul_spec, Ha'.
  destruct (mul_shift_l j lo lc _ _ Hlo Fa La La' Fc Lc Hf Hf') as (E & L1 & L2).
  rewrite E. now repeat split.
Qed.

Lemma scaled_mul_r (j lo lc : Z) (a a' c : float) :
  scaled j lo a a' -> exp_ge lc (Prim2SF c) -> -1021 <= lo + lc ->
  is_finite (c * a)%float = true -> is_finite (c * a')%float = true ->
  scaled j (lo + lc) (c * a)%float (c * a')%float.
Proof.
  intros (Ha' & La & La') Lc Hlo Hf Hf'.
  destruct (mul_finite_inv _ _ Hf) as [Fc Fa].
  rewrite is_finite_SF in Fa, Fc, Hf, Hf'.
  rewrite mul_spec in Hf, Hf'. rewrite Ha' in Hf', La'.
  unfold scaled. rewrite !mul_spec, Ha'.
  destruct (mul_shift_r j lo lc _ _ Hlo Fa La La' Fc Lc Hf Hf') as (E & L1 & L2).
  rewrite E. now repeat split.
Qed.

(** Division by the constant 100. *)
Lemma scaled_div_100 (j lo : Z) (a a' : float) :
  scaled j lo a a' -> -962 <= lo ->
  is_finite (a / 100)%float = true -> is_finite (a' / 100)%float = true ->
  scaled j (lo - 59) (a / 100)%float (a' / 100)%float.
Proof.
  intros (Ha' & La & La') Hlo Hf Hf'.
  pose proof (div_finite_inv _ _ Hf) as Fa.
  rewrite is_finite_SF in Fa, Hf, Hf'.
  rewrite div_spec in Hf, Hf'. rewrite Ha' in Hf', La'.
  unfold scaled. rewrite !div_spec, Ha'.
  change (Prim2SF 100) with (S754_finite false 7036874417766400 (-46)) in *.
  destruct (div_shift_l j lo (Prim2SF a) false 7036874417766400 (-46))
    as (E & L1 & L2); try assumption; [simpl; lia | lia |].
  rewrite E. replace (lo - 59) with (lo - -46 - 105) by lia. now repeat split.
Qed.

(** Multiplying the unscaled result by the power of two gives the scaled
    result. *)
Lemma scaled_final (k : float) (j lo : Z) (y y' : float) :
  power_of_two k = Some j -> -1074 < lo ->
  scaled j lo y y' -> is_finite y = true ->
  (k * y)%float = y'.
Proof.
  intros Hk Hlo (Hy' & Ly & Ly') Hf.
  apply Prim2SF_inj. rewrite mul_spec, (power_of_two_spec _ _ Hk), Hy'.
  rewrite is_finite_SF in Hf.
  pose proof (Prim2SF_valid y) as Hv. pose proof (Prim2SF_valid y') as Hv'.
  rewrite Hy' in Hv', Ly'.
  destruct (Prim2SF y) as [s|s| |s m e]; try discriminate.
  - reflexivity.
  - simpl in Ly, Ly'. cbn [shift] in *.
    destruct (valid_normal _ _ _ Hv) as [_ Hd].
    destruct (valid_normal _ _ _ Hv') as [Hhi _].
    apply pow2_mul; [apply Hd|]; lia.
Qed.

End PowerOfTwo.

Lemma scaled_weaken (j lo lo' : Z) (a a' : float) :
  scaled j lo a a' -> (lo' <= lo)%Z -> scaled j lo' a a'.
Proof.
  intros (E & L1 & L2) H. unfold scaled, exp_ge in *.
  destruct (Prim2SF a), (Prim2SF a'); repeat split; auto; lia.
Qed.

(** C7, as the code has it: in binary64, for [waste_kg], [km_year] and
    [fuel_efficiency], multiplying the field by a power of two [k]
    multiplies its category by [k], to the last bit, when the field and what
    the formula multiplies it by are normal numbers with exponents within
    200 of zero, [k] is between [2^-200] and [2^200], and neither category
    value overflows; and multiplying any field by any [k] leaves the other
    categories as they were. *)
Theorem scaling_by_power_of_two
    (f : field) (k c : float) (j : Z) (r : InputRecord float) :
  power_of_two k = Some j -> (-200 <= j <= 200)%Z ->
  multiplicand __init__ f r = Some c ->
  exponent_in (-200) 200 (get_field f r) = true ->
  exponent_in (-200) 200 c = true ->
  is_finite (co2 (category_of f) (emissions __init__ r)) = true ->
  is_finite (co2 (category_of f) (emissions __init__ (scale f k r))) = true ->
  co2 (category_of f) (emissions __init__ (scale f k r))
  = (k * co2 (category_of f) (emissions __init__ r))%float
  /\ (forall other : category,
        other <> category_of f ->
        co2 other (emissions __init__ (scale f k r))
        = co2 other (emissions __init__ r)).
Proof.
  intros Hk Hj Hc Hx Hcx Hfin Hfin'.
  split; [|intros other Ho; now apply scale_frame].
  symmetry.
  destruct r as [e g u w p q l].
  pose proof (fun x Hx => scaled_weaken j _ (-400) x (k * x)%float
                (scaled_start k j (-200) 200 x Hk Hx ltac:(lia) ltac:(lia)
                   ltac:(lia)) ltac:(lia)) as Start.
  destruct f; try discriminate Hc; injection Hc as <-;
    cbn [get_field] in Hx.
  - (* waste_kg *)
    change (is_finite (w * (0.57 - p / 100) * 12)%float = true) in Hfin.
    change (is_finite (k * w * (0.57 - p / 100) * 12)%float = true) in Hfin'.
    change ((k * (w * (0.57 - p / 100) * 12))%float
            = (k * w * (0.57 - p / 100) * 12)%float).
    change (exponent_in (-200) 200 (0.57 - p / 100)%float = true) in Hcx.
    pose proof (proj1 (mul_finite_inv _ _ Hfin)) as F1.
    pose proof (proj1 (mul_finite_inv _ _ Hfin')) as F1'.
    pose proof (scaled_mul_l j (-400) (-200) _ _ _ (Start w Hx)
                  (exponent_in_exp_ge _ _ _ Hcx) ltac:(lia) F1 F1') as S1.
    pose proof (scaled_mul_l j (-400 + -200) (-49) _ _ 12%float S1
                  ltac:(vm_compute; discriminate) ltac:(lia) Hfin Hfin') as S2.
    exact (scaled_final k j (-400 + -200 + -49) _ _ Hk ltac:(lia) S2 Hfin).
  - (* km_year *)
    change (is_finite (q / 100 * l * 2.31)%float = true) in Hfin.
    change (is_finite (k * q / 100 * l * 2.31)%float = true) in Hfin'.
    change ((k * (q / 100 * l * 2.31))%float = (k * q / 100 * l * 2.31)%float).
    pose proof (proj1 (mul_finite_inv _ _ Hfin)) as F2.
    pose proof (proj1 (mul_finite_inv _ _ Hfin')) as F2'.
    pose proof (proj1 (mul_finite_inv _ _ F2)) as F1.
    pose proof (proj1 (mul_finite_inv _ _ F2')) as F1'.
    pose proof (scaled_div_100 j (-400) _ _ (Start q Hx) ltac:(lia) F1 F1')
      as S1.
    pose proof (scaled_mul_l j (-400 - 59) (-200) _ _ _ S1
                  (exponent_in_exp_ge _ _ _ Hcx) ltac:(lia) F2 F2') as S2.
    pose proof (scaled_mul_l j (-400 - 59 + -200) (-51) _ _ 2.31%float S2
                  ltac:(vm_compute; discriminate) ltac:(lia) Hfin Hfin') as S3.
    exact (scaled_final k j (-400 - 59 + -200 + -51) _ _ Hk ltac:(lia) S3 Hfin).
  - (* fuel_efficiency *)
    change (is_finite (q / 100 * l * 2.31)%float = true) in Hfin.
    change (is_finite (q / 100 * (k * l) * 2.31)%float = true) in Hfin'.
    change ((k * (q / 100 * l * 2.31))%float = (q / 100 * (k * l) * 2.31)%float).
    change (exponent_in (-200) 200 (q / 100)%float = true) in Hcx.
    pose proof (proj1 (mul_finite_inv _ _ Hfin)) as F1.
    pose proof (proj1 (mul_finite_inv _ _ Hfin')) as F1'.
    pose proof (scaled_mul_r j (-400) (-200) _ _ _ (Start l Hx)
                  (exponent_in_exp_ge _ _ _ Hcx) ltac:(lia) F1 F1') as S1.
    pose proof (scaled_mul_l j (-400 + -200) (-51) _ _ 2.31%float S1
                  ltac:(vm_compute; discriminate) ltac:(lia) Hfin Hfin') as S2.
    exact (scaled_final k j (-400 + -200 + -51) _ _ Hk ltac:(lia) S2 Hfin).
Qed.

Lemma scaling_by_power_of_two_witness :
  let r := mkInput 100 50 0 200 50 10000 8 in
  travel_co2 (emissions __init__ (scale KmYear 0.125 r))
  = (0.125 * travel_co2 (emissions __init__ r))%float.
Proof.
  apply (scaling_by_power_of_two KmYear 0.125 8 (-3)
           (mkInput 100 50 0 200 50 10000 8));
    try reflexivity. lia.
Defined.
